(** * computeSales.py: sales totals from a price catalogue and a sales record

    A shallow embedding of [src/computeSales.py] and the properties of its
    catalogue builder, sales aggregator, report formatter and entry point.

    Python values that [json.load] can produce are an inductive type;
    Python floats are IEEE-754 binary64 values ([spec_float] of the Standard
    Library with [prec = 53] and [emax = 1024]); exceptions and [print] are
    threaded through a small state-and-error monad over the process's
    standard output. *)

From Stdlib Require Import ZArith List String Ascii Bool Lia.
From Stdlib Require Import Permutation Sorted.
From Stdlib Require Import Floats.SpecFloat.
Import ListNotations.

#[local] Set Warnings "-register-all".
Local Open Scope Z_scope.
Local Open Scope string_scope.
Local Open Scope list_scope.

(** ** Python floats: IEEE-754 binary64 *)

Module PyFloat.

Definition prec : Z := 53.
Definition emax : Z := 1024.

Definition float : Type := spec_float.

Definition zero : float := S754_zero false.
Definition nan : float := S754_nan.
Definition inf : float := S754_infinity false.

Definition add : float -> float -> float := SFadd prec emax.
Definition sub : float -> float -> float := SFsub prec emax.
Definition mul : float -> float -> float := SFmul prec emax.

(** [x < y] and [x >= y] on floats: every comparison with NaN is
    false. *)
Definition ltb : float -> float -> bool := SFltb.
Definition geb (x y : float) : bool := SFleb y x.

Definition is_nan (x : float) : bool :=
  match x with S754_nan => true | _ => false end.

Definition is_finite (x : float) : bool :=
  match x with S754_zero _ | S754_finite _ _ _ => true | _ => false end.

(** The nearest binary64 value of an integer, ties to even; an integer
    beyond the range rounds to an infinity. *)
Definition of_Z (z : Z) : float := binary_normalize prec emax z 0 false.

(** The nearest binary64 value of [m / d] for positive integers. *)
Definition of_ratio (neg : bool) (m d : positive) : float :=
  let '(q, e, l) := SFdiv_core_binary prec emax (Zpos m) 0 (Zpos d) 0 in
  binary_round_aux prec emax neg q e l.

(** The nearest binary64 value of [m * 10^e]. *)
Definition of_decimal (neg : bool) (m : Z) (e : Z) : float :=
  match m with
  | Zpos p =>
      match e with
      | Zneg k => of_ratio neg p (Pos.pow 10 k)
      | _ => binary_round prec emax neg (p * Z.to_pos (10 ^ e))%positive 0
      end
  | _ => S754_zero neg
  end.

(** The integer part of a finite float, rounded toward zero. *)
Definition trunc (x : float) : option Z :=
  match x with
  | S754_zero _ => Some 0
  | S754_finite s m e =>
      let a := match e with
               | Zneg k => Z.shiftr (Zpos m) (Zpos k)
               | _ => Z.shiftl (Zpos m) e
               end in
      Some (if s then - a else a)
  | _ => None
  end.

(** Whether a float is a finite number with no fractional part. *)
Definition is_integer (x : float) : bool :=
  match x with
  | S754_zero _ => true
  | S754_finite _ m e =>
      match e with
      | Zneg k => Z.eqb (Z.land (Zpos m) (Z.ones (Zpos k))) 0
      | _ => true
      end
  | _ => false
  end.

Definition eqb_struct (x y : float) : bool :=
  match x, y with
  | S754_zero a, S754_zero b => Bool.eqb a b
  | S754_infinity a, S754_infinity b => Bool.eqb a b
  | S754_nan, S754_nan => true
  | S754_finite a m e, S754_finite b n f =>
      Bool.eqb a b && Pos.eqb m n && Z.eqb e f
  | _, _ => false
  end.

End PyFloat.

Abbreviation float := PyFloat.float.

(** ** Python values, exceptions and the effect monad *)

(** The values [json.load] produces: [null], booleans, integers, floats
    (the literals [NaN], [Infinity] and [-Infinity] included), strings,
    arrays and objects.  An object is its list of bindings, one for each
    key (of a key given twice [json.load] keeps the last value); its keys
    are strings. *)
Inductive pyval : Type :=
| PNone
| PBool (b : bool)
| PInt (z : Z)
| PFloat (f : float)
| PStr (s : string)
| PList (l : list pyval)
| PDict (d : list (string * pyval)).

(** The exceptions the program can meet.  [SystemExit] carries the status
    passed to [sys.exit]. *)
Inductive exn : Type :=
| AttributeError
| TypeError
| ValueError
| OverflowError
| KeyError
| RecursionError
| SystemExit (status : Z).

Inductive result (A : Type) : Type :=
| Ok (a : A)
| Raise (e : exn).
Arguments Ok {A} a.
Arguments Raise {A} e.

(** Truthiness, as [not x] and [if x] test it. *)
Definition truthy (v : pyval) : bool :=
  match v with
  | PNone => false
  | PBool b => b
  | PInt z => negb (Z.eqb z 0)
  | PFloat f => match f with S754_zero _ => false | _ => true end
  | PStr s => match s with EmptyString => false | _ => true end
  | PList l => match l with [] => false | _ => true end
  | PDict d => match d with [] => false | _ => true end
  end.

Definition is_None (v : pyval) : bool :=
  match v with PNone => true | _ => false end.

(** *** Numeric literals in strings *)

Module Literal.

(** The ASCII white space that [int] and [float] strip: tab, line feed,
    vertical tab, form feed, carriage return and space.  Strings are byte
    strings; white space and digits outside ASCII are not modelled. *)
Definition is_space (c : ascii) : bool :=
  let n := nat_of_ascii c in
  ((9 <=? n)%nat && (n <=? 13)%nat) || (n =? 32)%nat.

Definition digit_val (c : ascii) : option Z :=
  let n := nat_of_ascii c in
  if ((48 <=? n)%nat && (n <=? 57)%nat)%bool
  then Some (Z.of_nat n - 48) else None.

Definition is_underscore (c : ascii) : bool := (nat_of_ascii c =? 95)%nat.

Fixpoint lstrip (l : list ascii) : list ascii :=
  match l with
  | c :: l' => if is_space c then lstrip l' else l
  | [] => []
  end.

Definition strip (l : list ascii) : list ascii :=
  rev (lstrip (rev (lstrip l))).

(** An optional sign: whether it is a minus, and the rest. *)
Definition sign (l : list ascii) : bool * list ascii :=
  match l with
  | "+"%char :: l' => (false, l')
  | "-"%char :: l' => (true, l')
  | _ => (false, l)
  end.

(** The digits after the first of a [digitpart]: each is a digit or an
    underscore followed by a digit.  Returns the value, the number of
    digits read and what remains. *)
Fixpoint digits_tail (l : list ascii) (acc : Z) (n : nat)
  : Z * nat * list ascii :=
  match l with
  | c :: l' =>
      match digit_val c with
      | Some d => digits_tail l' (10 * acc + d) (S n)
      | None =>
          if is_underscore c then
            match l' with
            | c2 :: l'' =>
                match digit_val c2 with
                | Some d => digits_tail l'' (10 * acc + d) (S n)
                | None => (acc, n, l)
                end
            | [] => (acc, n, l)
            end
          else (acc, n, l)
      end
  | [] => (acc, n, [])
  end.

(** [digitpart ::= digit (["_"] digit)*], its digits appended to the
    decimal number [acc]. *)
Definition digitpart_acc (acc : Z) (l : list ascii)
  : option (Z * nat * list ascii) :=
  match l with
  | c :: l' =>
      match digit_val c with
      | Some d => Some (digits_tail l' (10 * acc + d) 1%nat)
      | None => None
      end
  | [] => None
  end.

Definition digitpart : list ascii -> option (Z * nat * list ascii) :=
  digitpart_acc 0.

(** The limit of [sys.int_max_str_digits] on decimal integer strings. *)
Definition int_max_str_digits : nat := 4300.

(** [int(s)] for a string: an optional sign and a [digitpart] between
    optional white space. *)
Definition parse_int (s : string) : option Z :=
  let '(neg, l) := sign (strip (list_ascii_of_string s)) in
  match digitpart l with
  | Some (v, n, []) =>
      if (n <=? int_max_str_digits)%nat
      then Some (if neg then - v else v) else None
  | _ => None
  end.

Definition lower (c : ascii) : ascii :=
  let n := nat_of_ascii c in
  if ((65 <=? n)%nat && (n <=? 90)%nat)%bool
  then ascii_of_nat (n + 32) else c.

Definition is_word (w : string) (l : list ascii) : bool :=
  String.eqb (string_of_list_ascii (map lower l)) w.

(** [exponent ::= ("e" | "E") ["+" | "-"] digitpart], to the end. *)
Definition exponent (l : list ascii) : option Z :=
  match l with
  | [] => Some 0
  | c :: l' =>
      if Ascii.eqb (lower c) "e"%char then
        let '(neg, l'') := sign l' in
        match digitpart l'' with
        | Some (v, _, []) => Some (if neg then - v else v)
        | _ => None
        end
      else None
  end.

Definition with_exponent (m : Z) (shift : nat) (l : list ascii)
  : option (Z * Z) :=
  match exponent l with
  | Some e => Some (m, e - Z.of_nat shift)
  | None => None
  end.

(** [number ::= [digitpart] "." digitpart | digitpart ["."]] followed by
    an optional exponent: the decimal mantissa and exponent. *)
Definition floatnumber (l : list ascii) : option (Z * Z) :=
  match digitpart l with
  | Some (i, _, r) =>
      match r with
      | "."%char :: r' =>
          match digitpart_acc i r' with
          | Some (m, n, r'') => with_exponent m n r''
          | None => with_exponent i 0 r'
          end
      | _ => with_exponent i 0 r
      end
  | None =>
      match l with
      | "."%char :: r' =>
          match digitpart r' with
          | Some (m, n, r'') => with_exponent m n r''
          | None => None
          end
      | _ => None
      end
  end.

(** [float(s)] for a string: an optional sign and a decimal number,
    [inf], [infinity] or [nan] in any case, between optional white
    space. *)
Definition parse_float (s : string) : option float :=
  let '(neg, l) := sign (strip (list_ascii_of_string s)) in
  if is_word "nan" l then Some S754_nan
  else if is_word "inf" l || is_word "infinity" l
       then Some (S754_infinity neg)
  else match floatnumber l with
       | Some (m, e) => Some (PyFloat.of_decimal neg m e)
       | None => None
       end.

End Literal.

(** *** The builtins [int] and [float] *)

(** [int(v)]: a string is parsed, a float is truncated toward zero, a
    boolean is 0 or 1.  [None], lists and dicts raise [TypeError], a
    malformed string and NaN raise [ValueError], an infinity raises
    [OverflowError]. *)
Definition py_int (v : pyval) : result Z :=
  match v with
  | PNone => Raise TypeError
  | PBool b => Ok (if b then 1 else 0)
  | PInt z => Ok z
  | PFloat f =>
      match PyFloat.trunc f with
      | Some z => Ok z
      | None => if PyFloat.is_nan f then Raise ValueError
                else Raise OverflowError
      end
  | PStr s =>
      match Literal.parse_int s with
      | Some z => Ok z
      | None => Raise ValueError
      end
  | PList _ | PDict _ => Raise TypeError
  end.

(** The float of an integer; [OverflowError] when it is out of range. *)
Definition float_of_int (z : Z) : result float :=
  let f := PyFloat.of_Z z in
  if PyFloat.is_finite f then Ok f else Raise OverflowError.

(** [float(v)]. *)
Definition py_float (v : pyval) : result float :=
  match v with
  | PNone => Raise TypeError
  | PBool b => Ok (PyFloat.of_Z (if b then 1 else 0))
  | PInt z => float_of_int z
  | PFloat f => Ok f
  | PStr s =>
      match Literal.parse_float s with
      | Some f => Ok f
      | None => Raise ValueError
      end
  | PList _ | PDict _ => Raise TypeError
  end.

(** [x * n] for a float [x] and an integer [n]: the integer is converted
    to a float first. *)
Definition float_mul_int (x : float) (n : Z) : result float :=
  match float_of_int n with
  | Ok y => Ok (PyFloat.mul x y)
  | Raise e => Raise e
  end.

(** *** Dictionaries keyed by Python values *)

(** A hashable value up to Python's equality: [True == 1 == 1.0] and
    [False == 0 == 0.0 == -0.0] are one key each, so a number with an
    integer value is [KInt] and [KFloat] holds the other floats.
    [json.load] gives every [NaN] literal the same object, which a dict
    finds again by identity: NaN is one key as well. *)
Inductive key : Type :=
| KNone
| KInt (z : Z)
| KFloat (f : float)
| KStr (s : string).

(** The key of a value; lists and dicts are unhashable. *)
Definition py_hash (v : pyval) : result key :=
  match v with
  | PNone => Ok KNone
  | PBool b => Ok (KInt (if b then 1 else 0))
  | PInt z => Ok (KInt z)
  | PFloat f =>
      if PyFloat.is_integer f
      then match PyFloat.trunc f with
           | Some z => Ok (KInt z)
           | None => Ok (KFloat f)
           end
      else Ok (KFloat f)
  | PStr s => Ok (KStr s)
  | PList _ | PDict _ => Raise TypeError
  end.

Definition key_eqb (a b : key) : bool :=
  match a, b with
  | KNone, KNone => true
  | KInt x, KInt y => Z.eqb x y
  | KFloat x, KFloat y => PyFloat.eqb_struct x y
  | KStr x, KStr y => String.eqb x y
  | _, _ => false
  end.

(** A Python dict: its bindings in insertion order, one per key. *)
Definition dict (V : Type) : Type := list (key * V).

Fixpoint lookup {V : Type} (k : key) (d : dict V) : option V :=
  match d with
  | [] => None
  | (k', v) :: d' => if key_eqb k k' then Some v else lookup k d'
  end.

(** [d[k] = v]: the binding of [k] is replaced where it stands, a new key
    is added at the end. *)
Fixpoint setitem {V : Type} (k : key) (v : V) (d : dict V) : dict V :=
  match d with
  | [] => [(k, v)]
  | (k', v') :: d' =>
      if key_eqb k k' then (k', v) :: d' else (k', v') :: setitem k v d'
  end.

Definition keys {V : Type} (d : dict V) : list key := map fst d.

(** [v in d], [d[v]] and [d[v] = x] for a Python value [v]: each hashes
    [v] first. *)
Definition contains {V : Type} (d : dict V) (v : pyval) : result bool :=
  match py_hash v with
  | Ok k => Ok (match lookup k d with Some _ => true | None => false end)
  | Raise e => Raise e
  end.

Definition getitem {V : Type} (d : dict V) (v : pyval) : result V :=
  match py_hash v with
  | Ok k => match lookup k d with Some x => Ok x | None => Raise KeyError end
  | Raise e => Raise e
  end.

Definition store {V : Type} (d : dict V) (v : pyval) (x : V)
  : result (dict V) :=
  match py_hash v with
  | Ok k => Ok (setitem k x d)
  | Raise e => Raise e
  end.

(** An update in place of the object [d[v]]. *)
Definition modify {V : Type} (d : dict V) (v : pyval) (f : V -> V)
  : result (dict V) :=
  match getitem d v with
  | Ok x => store d v (f x)
  | Raise e => Raise e
  end.

(** [obj.get(name, default)] on a JSON value: only an object has [get]. *)
Fixpoint assoc (name : string) (d : list (string * pyval)) : option pyval :=
  match d with
  | [] => None
  | (n, v) :: d' => if String.eqb name n then Some v else assoc name d'
  end.

Definition get (obj : pyval) (name : string) (default : pyval)
  : result pyval :=
  match obj with
  | PDict d =>
      Ok (match assoc name d with Some v => v | None => default end)
  | _ => Raise AttributeError
  end.

(** ** The data model of the aggregation *)

(** One item of a sale: a dict with the keys [product], [quantity],
    [unit_price] and [line_total]. *)
Record line_item : Type := {
  product : pyval;
  quantity : Z;
  unit_price : float;
  line_total : float
}.

(** The summary of a sale: a dict with the keys [date], [items] and
    [total]. *)
Record sale : Type := {
  date : pyval;
  items : list line_item;
  total : float
}.

(** *** Output *)

(** A line of the report of [format_results], by the source line that
    renders it; the text layout of the numbers is not modelled. *)
Inductive report_line : Type :=
| LTitle
| LBlank
| LSaleHeader (sale_id : key) (date : pyval)
| LDashes
| LColumns
| LColumnRule
| LItem (item : line_item)
| LSubtotalRule
| LSaleTotal (total : float)
| LSeparator
| LGrandTotal (grand_total : float)
| LElapsed (elapsed : float).

(** What the program prints, one constructor per [print] statement. *)
Inductive output : Type :=
| ErrFileNotFound (filepath : string)
| ErrInvalidJSON (filepath : string)
| ErrPermissionRead (filepath : string)
| ErrCouldNotRead (filepath : string)
| WarnNoTitle (idx : nat)
| WarnNoPrice (title : pyval)
| WarnInvalidPrice (title price : pyval)
| WarnNegativePrice (title : pyval)
| WarnNoSaleId (idx : nat)
| WarnNoProduct (idx : nat) (sale_id : pyval)
| WarnInvalidQuantity (idx : nat) (sale_id quantity : pyval)
| WarnUnknownProduct (product : pyval) (idx : nat)
| ErrPermissionWrite (filepath : string)
| ErrCouldNotWrite (filepath : string)
| ErrCatalogueNotArray
| ErrSalesNotArray
| ErrNoValidProducts
| Help
| Results (text : list report_line)
| ResultsSaved.

(** *** The effect monad *)

(** The state of a run: what has been printed and the files written. *)
Record world : Type := {
  stdout : list output;
  files : list (string * list report_line)
}.

Definition M (A : Type) : Type := world -> world * result A.

Definition ret {A : Type} (a : A) : M A := fun w => (w, Ok a).

Definition raise {A : Type} (e : exn) : M A := fun w => (w, Raise e).

Definition bind {A B : Type} (m : M A) (f : A -> M B) : M B :=
  fun w =>
    match m w with
    | (w', Ok a) => f a w'
    | (w', Raise e) => (w', Raise e)
    end.

Definition lift {A : Type} (r : result A) : M A := fun w => (w, r).

Definition print (o : output) : M unit :=
  fun w => ({| stdout := stdout w ++ [o]; files := files w |}, Ok tt).

Declare Scope py_scope.
Delimit Scope py_scope with py.
Notation "x <- m ;; k" := (bind m (fun x => k))
  (at level 100, m at next level, right associativity) : py_scope.
Notation "' p <- m ;; k" := (bind m (fun p => k))
  (at level 100, p pattern, m at next level, right associativity) : py_scope.
Notation "m ;; k" := (bind m (fun _ => k))
  (at level 100, right associativity) : py_scope.
Local Open Scope py_scope.

(** [for idx, x in enumerate(l)] over a loop state; the body ends a turn
    ([continue] included) by returning the next state. *)
Fixpoint for_enumerate {A St : Type} (body : nat -> A -> St -> M St)
  (idx : nat) (l : list A) (s : St) : M St :=
  match l with
  | [] => ret s
  | x :: l' => s' <- body idx x s ;; for_enumerate body (S idx) l' s'
  end.

(** ** [build_price_catalogue] *)

Definition build_price_catalogue_body (idx : nat) (product : pyval)
  (catalogue : dict float) : M (dict float) :=
  title <- lift (get product "title" PNone) ;;
  price <- lift (get product "price" PNone) ;;
  if negb (truthy title) then
    print (WarnNoTitle idx) ;; ret catalogue
  else if is_None price then
    print (WarnNoPrice title) ;; ret catalogue
  else
    match py_float price with
    | Raise ValueError | Raise TypeError =>
        print (WarnInvalidPrice title price) ;; ret catalogue
    | Raise e => raise e
    | Ok price =>
        if PyFloat.ltb price PyFloat.zero then
          print (WarnNegativePrice title) ;; ret catalogue
        else lift (store catalogue title price)
    end.

Definition build_price_catalogue (products : list pyval) : M (dict float) :=
  for_enumerate build_price_catalogue_body 0 products [].

(** ** [compute_sales] *)

Definition new_sale (date : pyval) : sale :=
  {| date := date; items := []; total := PyFloat.zero |}.

Definition append_item (item : line_item) (s : sale) : sale :=
  {| date := date s; items := items s ++ [item]; total := total s |}.

Definition add_total (line_total : float) (s : sale) : sale :=
  {| date := date s; items := items s;
     total := PyFloat.add (total s) line_total |}.

Definition compute_sales_body (catalogue : dict float) (idx : nat)
  (record : pyval) (acc : dict sale * float) : M (dict sale * float) :=
  let '(sale_totals, grand_total) := acc in
  sale_id <- lift (get record "SALE_ID" PNone) ;;
  if is_None sale_id then
    print (WarnNoSaleId idx) ;; ret acc
  else
    product <- lift (get record "Product" PNone) ;;
    if negb (truthy product) then
      print (WarnNoProduct idx sale_id) ;; ret acc
    else
      quantity <- lift (get record "Quantity" PNone) ;;
      match py_int quantity with
      | Raise ValueError | Raise TypeError =>
          print (WarnInvalidQuantity idx sale_id quantity) ;; ret acc
      | Raise e => raise e
      | Ok quantity =>
          known <- lift (contains catalogue product) ;;
          if negb known then
            print (WarnUnknownProduct product idx) ;; ret acc
          else
            unit_price <- lift (getitem catalogue product) ;;
            line_total <- lift (float_mul_int unit_price quantity) ;;
            seen <- lift (contains sale_totals sale_id) ;;
            sale_totals <-
              (if negb seen then
                 date <- lift (get record "SALE_Date" (PStr "N/A")) ;;
                 lift (store sale_totals sale_id (new_sale date))
               else ret sale_totals) ;;
            sale_totals <-
              lift (modify sale_totals sale_id
                      (append_item {| product := product;
                                      quantity := quantity;
                                      unit_price := unit_price;
                                      line_total := line_total |})) ;;
            sale_totals <-
              lift (modify sale_totals sale_id (add_total line_total)) ;;
            ret (sale_totals, PyFloat.add grand_total line_total)
      end.

Definition compute_sales (catalogue : dict float)
  (sales_records : list pyval) : M (dict sale * float) :=
  for_enumerate (compute_sales_body catalogue) 0 sales_records
    ([], PyFloat.zero).

(** ** [format_results] *)

Module Order.

(** The numbers among the keys, as [m * 2^e], an infinity or NaN. *)
Inductive num : Type :=
| NFin (m e : Z)
| NInf (neg : bool)
| NNan.

Definition num_of_float (f : float) : num :=
  match f with
  | S754_zero _ => NFin 0 0
  | S754_finite s m e => NFin (if s then Zneg m else Zpos m) e
  | S754_infinity s => NInf s
  | S754_nan => NNan
  end.

(** [a < b] on numbers, exact between integers and floats; false when
    either is NaN. *)
Definition num_ltb (a b : num) : bool :=
  match a, b with
  | NNan, _ | _, NNan => false
  | NInf s, NInf t => s && negb t
  | NInf s, NFin _ _ => s
  | NFin _ _, NInf t => negb t
  | NFin m1 e1, NFin m2 e2 =>
      let e := Z.min e1 e2 in
      Z.ltb (Z.shiftl m1 (e1 - e)) (Z.shiftl m2 (e2 - e))
  end.

Definition num_of_key (k : key) : option num :=
  match k with
  | KInt z => Some (NFin z 0)
  | KFloat f => Some (num_of_float f)
  | _ => None
  end.

(** [a < b] on keys: strings by code point, numbers by value; a string
    against a number, or [None] against anything, is a [TypeError]. *)
Definition key_lt (a b : key) : result bool :=
  match a, b with
  | KStr x, KStr y => Ok (String.ltb x y)
  | _, _ =>
      match num_of_key a, num_of_key b with
      | Some x, Some y => Ok (num_ltb x y)
      | _, _ => Raise TypeError
      end
  end.

(** [x] placed in an ascending list, after the elements below it. *)
Fixpoint insert (x : key) (l : list key) : result (list key) :=
  match l with
  | [] => Ok [x]
  | y :: l' =>
      match key_lt y x with
      | Ok true =>
          match insert x l' with
          | Ok r => Ok (y :: r)
          | Raise e => Raise e
          end
      | Ok false => Ok (x :: l)
      | Raise e => Raise e
      end
  end.

(** [sorted(l)]: a stable sort by [<].  With NaN among the keys [<] is
    no total order, and the order Python's sort leaves is not
    specified. *)
Fixpoint sorted (l : list key) : result (list key) :=
  match l with
  | [] => Ok []
  | x :: l' =>
      match sorted l' with
      | Ok r => insert x r
      | Raise e => Raise e
      end
  end.

End Order.

(** The lines of one sale of the detailed report. *)
Definition format_sale (sale_id : key) (s : sale) : list report_line :=
  [LSaleHeader sale_id (date s); LDashes; LColumns; LColumnRule]
  ++ map LItem (items s)
  ++ [LSubtotalRule; LSaleTotal (total s); LBlank].

Fixpoint format_sales (sale_totals : dict sale) (ids : list key)
  : result (list report_line) :=
  match ids with
  | [] => Ok []
  | sale_id :: ids' =>
      match lookup sale_id sale_totals with
      | Some s =>
          match format_sales sale_totals ids' with
          | Ok ls => Ok (format_sale sale_id s ++ ls)
          | Raise e => Raise e
          end
      | None => Raise KeyError
      end
  end.

Definition format_results (sale_totals : dict sale)
  (grand_total elapsed : float) (detailed : bool)
  : result (list report_line) :=
  let lines := [LTitle; LBlank] in
  let footer := [LSeparator; LGrandTotal grand_total; LSeparator;
                 LElapsed elapsed; LSeparator] in
  if detailed then
    match Order.sorted (keys sale_totals) with
    | Ok ids =>
        match format_sales sale_totals ids with
        | Ok ls => Ok (lines ++ ls ++ footer)
        | Raise e => Raise e
        end
    | Raise e => Raise e
    end
  else Ok (lines ++ footer).

(** ** The environment: files, clock and command line *)

(** What opening and parsing a JSON file comes to: the data, one of the
    exceptions that [load_json] catches, or one that it does not (a
    [UnicodeDecodeError], which is a [ValueError], or a [RecursionError]
    on a deeply nested document). *)
Inductive load_outcome : Type :=
| Loaded (data : pyval)
| FileNotFoundError
| JSONDecodeError
| PermissionError
| OSError
| UnicodeDecodeError
| TooDeep.

Inductive write_outcome : Type :=
| Written
| WritePermissionError
| WriteOSError.

Record env : Type := {
  read_json : string -> load_outcome;
  open_for_writing : string -> write_outcome;
  start_time : float;
  end_time : float
}.

Definition sys_exit {A : Type} (status : Z) : M A := raise (SystemExit status).

(** ** [load_json] *)

Definition load_json (E : env) (filepath : string) : M pyval :=
  match read_json E filepath with
  | Loaded data => ret data
  | FileNotFoundError => print (ErrFileNotFound filepath) ;; sys_exit 1
  | JSONDecodeError => print (ErrInvalidJSON filepath) ;; sys_exit 1
  | PermissionError => print (ErrPermissionRead filepath) ;; sys_exit 1
  | OSError => print (ErrCouldNotRead filepath) ;; sys_exit 1
  | UnicodeDecodeError => raise ValueError
  | TooDeep => raise RecursionError
  end.

(** ** [write_results] *)

Definition write_file (filepath : string) (text : list report_line)
  : M unit :=
  fun w => ({| stdout := stdout w; files := (filepath, text) :: files w |},
            Ok tt).

Definition write_results (E : env) (text : list report_line)
  (filepath : string) : M unit :=
  match open_for_writing E filepath with
  | Written => write_file filepath text
  | WritePermissionError => print (ErrPermissionWrite filepath)
  | WriteOSError => print (ErrCouldNotWrite filepath)
  end.

(** ** [parse_args] *)

(** The part of [argparse] that the parser of [parse_args] uses: two
    positionals, [-h]/[--help], and the group of [--total] and [--detail],
    both [store_true].  Long options may be abbreviated, [--] ends the
    options, a negative number or an argument with a space is a
    positional.  A [--] given again after the separator is taken as a
    positional value.  The usage message of an error goes to the standard
    error stream, which is not modelled; the help text goes to the
    standard output. *)
Module Argparse.

Inductive arg_class : Type :=
| APositional
| ASeparator
| ATotal
| ADetail
| AHelp
| AExplicit     (* an option given a value: an error where it stands *)
| AUnknown      (* no such option: reported at the end *)
| AAmbiguous.   (* abbreviates several options: an error at once *)

Fixpoint all_digits (l : list ascii) : bool :=
  match l with
  | [] => true
  | c :: l' =>
      match Literal.digit_val c with
      | Some _ => all_digits l'
      | None => false
      end
  end.

Fixpoint skip_digits (l : list ascii) : list ascii :=
  match l with
  | c :: l' =>
      match Literal.digit_val c with
      | Some _ => skip_digits l'
      | None => l
      end
  | [] => []
  end.

(** [-\d+] or [-\d*\.\d+], the dash already removed. *)
Definition negative_number (l : list ascii) : bool :=
  match skip_digits l with
  | [] => negb (match l with [] => true | _ => false end)
  | "."%char :: r => negb (match r with [] => true | _ => false end)
                     && all_digits r
  | _ => false
  end.

Definition has_space (l : list ascii) : bool :=
  existsb (fun c => Ascii.eqb c " "%char) l.

(** The part before the first [=], and whether there is one. *)
Fixpoint split_eq (l : list ascii) : list ascii * bool :=
  match l with
  | [] => ([], false)
  | c :: l' =>
      if Ascii.eqb c "="%char then ([], true)
      else let '(h, b) := split_eq l' in (c :: h, b)
  end.

Definition long_options : list (string * arg_class) :=
  [("--help", AHelp); ("--total", ATotal); ("--detail", ADetail)].

Definition classify_long (l : list ascii) : arg_class :=
  let '(head, explicit) := split_eq l in
  let h := string_of_list_ascii head in
  match filter (fun o => String.prefix h (fst o)) long_options with
  | [o] => if explicit then AExplicit else snd o
  | [] => if has_space l then APositional else AUnknown
  | _ => AAmbiguous
  end.

Definition classify_short (rest : list ascii) : arg_class :=
  match rest with
  | "h"%char :: r =>
      if forallb (fun c => Ascii.eqb c "h"%char) r then AHelp
      else AExplicit
  | _ =>
      if negative_number rest then APositional
      else if has_space rest then APositional
      else AUnknown
  end.

Definition classify (arg : string) : arg_class :=
  match list_ascii_of_string arg with
  | "-"%char :: "-"%char :: [] => ASeparator
  | "-"%char :: "-"%char :: _ => classify_long (list_ascii_of_string arg)
  | "-"%char :: [] => APositional
  | "-"%char :: rest => classify_short rest
  | _ => APositional
  end.

(** The classes of the arguments; after the separator all are
    positionals. *)
Fixpoint classes (argv : list string) : list (arg_class * string) :=
  match argv with
  | [] => []
  | a :: argv' =>
      match classify a with
      | ASeparator => map (fun x => (APositional, x)) argv'
      | c => (c, a) :: classes argv'
      end
  end.

(** What the parser has taken in so far. *)
Record seen : Type := {
  positionals : list string;
  seen_total : bool;
  seen_detail : bool;
  unrecognized : bool
}.

Inductive parsed : Type :=
| Parsed (s : seen)
| ExitHelp
| ExitError.

Fixpoint consume (l : list (arg_class * string)) (s : seen) : parsed :=
  match l with
  | [] => Parsed s
  | (c, a) :: l' =>
      match c with
      | APositional | ASeparator =>
          consume l' {| positionals := positionals s ++ [a];
                        seen_total := seen_total s;
                        seen_detail := seen_detail s;
                        unrecognized := unrecognized s |}
      | ATotal =>
          if seen_detail s then ExitError
          else consume l' {| positionals := positionals s;
                             seen_total := true;
                             seen_detail := seen_detail s;
                             unrecognized := unrecognized s |}
      | ADetail =>
          if seen_total s then ExitError
          else consume l' {| positionals := positionals s;
                             seen_total := seen_total s;
                             seen_detail := true;
                             unrecognized := unrecognized s |}
      | AHelp => ExitHelp
      | AExplicit | AAmbiguous => ExitError
      | AUnknown =>
          consume l' {| positionals := positionals s;
                        seen_total := seen_total s;
                        seen_detail := seen_detail s;
                        unrecognized := true |}
      end
  end.

(** A [store_true] option: [True] when given, its default otherwise. *)
Definition store_true (given default : bool) : bool :=
  if given then true else default.

End Argparse.

(** The [argparse.Namespace] of [parse_args]. *)
Module Args.

Record Namespace : Type := {
  catalogue : string;
  sales : string;
  total : bool;
  detail : bool
}.

End Args.

Definition parse_args (argv : list string) : M Args.Namespace :=
  let cs := Argparse.classes argv in
  if existsb (fun c => match fst c with
                       | Argparse.AAmbiguous => true
                       | _ => false
                       end) cs
  then sys_exit 2
  else
    match Argparse.consume cs {| Argparse.positionals := [];
                                 Argparse.seen_total := false;
                                 Argparse.seen_detail := false;
                                 Argparse.unrecognized := false |} with
    | Argparse.ExitHelp => print Help ;; sys_exit 0
    | Argparse.ExitError => sys_exit 2
    | Argparse.Parsed s =>
        match Argparse.positionals s, Argparse.unrecognized s with
        | [c; r], false =>
            let args :=
              {| Args.catalogue := c;
                 Args.sales := r;
                 Args.total :=
                   Argparse.store_true (Argparse.seen_total s) true;
                 Args.detail :=
                   Argparse.store_true (Argparse.seen_detail s) false |} in
            if Args.total args
            then ret {| Args.catalogue := Args.catalogue args;
                        Args.sales := Args.sales args;
                        Args.total := Args.total args;
                        Args.detail := false |}
            else ret args
        | _, _ => sys_exit 2
        end
    end.

(** ** [main] *)

Definition is_empty {V : Type} (d : dict V) : bool :=
  match d with [] => true | _ => false end.

Definition results_file : string := "SalesResults.txt".

Definition main (E : env) (argv : list string) : M unit :=
  args <- parse_args argv ;;
  products <- load_json E (Args.catalogue args) ;;
  match products with
  | PList products =>
      sales_records <- load_json E (Args.sales args) ;;
      match sales_records with
      | PList sales_records =>
          catalogue <- build_price_catalogue products ;;
          if is_empty catalogue then
            print ErrNoValidProducts ;; sys_exit 1
          else
            '(sale_totals, grand_total) <-
              compute_sales catalogue sales_records ;;
            let elapsed := PyFloat.sub (end_time E) (start_time E) in
            results <-
              lift (format_results sale_totals grand_total elapsed
                      (Args.detail args)) ;;
            print (Results results) ;;
            write_results E results results_file ;;
            print ResultsSaved
      | _ => print ErrSalesNotArray ;; sys_exit 1
      end
  | _ => print ErrCatalogueNotArray ;; sys_exit 1
  end.

(** The exit status of the process: 0 when [main] returns, the status of
    [sys.exit], 1 for an exception nobody caught. *)
Definition exit_status (r : result unit) : Z :=
  match r with
  | Ok _ => 0
  | Raise (SystemExit status) => status
  | Raise _ => 1
  end.

Definition initial : world := {| stdout := []; files := [] |}.

Definition run (E : env) (argv : list string) : world * Z :=
  let '(w, r) := main E argv initial in (w, exit_status r).

(** * Definitions for the properties *)

(** The world after some more lines of output. *)
Definition emit (log : list output) (w : world) : world :=
  {| stdout := stdout w ++ log; files := files w |}.

(** A computation that only prints: what it prints and what it returns
    do not depend on the world it starts in, and no file is touched. *)
Definition prints_only {A : Type} (m : M A) : Prop :=
  exists log r, forall w, m w = (emit log w, r).

(** ** One sale line *)

(** A field of a record as [record.get(name)] reads it: [None] when the
    key is missing and when it holds JSON [null]. *)
Definition field (record : pyval) (name : string) : pyval :=
  match record with
  | PDict d => match assoc name d with Some v => v | None => PNone end
  | _ => PNone
  end.

(** The date a record gives its sale: [SALE_Date], or the sentinel when
    the record has no such key. *)
Definition sale_date (record : pyval) : pyval :=
  match record with
  | PDict d =>
      match assoc "SALE_Date" d with Some v => v | None => PStr "N/A" end
  | _ => PStr "N/A"
  end.

(** What one turn of the loop of [compute_sales] does with a record,
    whatever the sales so far: it skips the record with a warning, raises,
    or takes it as an item of the sale with some key. *)
Inductive verdict : Type :=
| Skipped (warning : nat -> output)
| Raised (e : exn)
| Accepted (sale_id : key) (item : line_item).

Definition examine (catalogue : dict float) (record : pyval) : verdict :=
  match record with
  | PDict _ =>
      let sale_id := field record "SALE_ID" in
      let product := field record "Product" in
      let quantity := field record "Quantity" in
      if is_None sale_id then Skipped WarnNoSaleId
      else if negb (truthy product)
      then Skipped (fun idx => WarnNoProduct idx sale_id)
      else
        match py_int quantity with
        | Raise ValueError | Raise TypeError =>
            Skipped (fun idx => WarnInvalidQuantity idx sale_id quantity)
        | Raise e => Raised e
        | Ok q =>
            match py_hash product with
            | Raise e => Raised e
            | Ok kp =>
                match lookup kp catalogue with
                | None => Skipped (WarnUnknownProduct product)
                | Some price =>
                    match float_mul_int price q with
                    | Raise e => Raised e
                    | Ok lt =>
                        match py_hash sale_id with
                        | Raise e => Raised e
                        | Ok k =>
                            Accepted k {| product := product;
                                          quantity := q;
                                          unit_price := price;
                                          line_total := lt |}
                        end
                    end
                end
            end
        end
  | _ => Raised AttributeError
  end.

(** The sales after one more item of sale [k]; [date] is for a sale that
    is new. *)
Definition add_line (k : key) (date : pyval) (item : line_item)
  (sale_totals : dict sale) : dict sale :=
  let s := match lookup k sale_totals with
           | Some s => s
           | None => new_sale date
           end in
  setitem k (add_total (line_total item) (append_item item s)) sale_totals.

(** ** The validations of a sale line, in the words of the specification *)

(** [SALE_ID] is there: [record.get("SALE_ID")] is not [None]. *)
Definition sale_id_present (record : pyval) : bool :=
  negb (is_None (field record "SALE_ID")).

(** Present, and not an empty string (nor an empty list or object). *)
Definition product_present_nonempty (record : pyval) : bool :=
  match field record "Product" with
  | PNone => false
  | PStr EmptyString => false
  | PList [] => false
  | PDict [] => false
  | _ => true
  end.

(** [int] accepts the quantity. *)
Definition quantity_parses (record : pyval) : bool :=
  match py_int (field record "Quantity") with
  | Ok _ => true
  | Raise _ => false
  end.

(** The price of the product of a record, when the catalogue has it. *)
Definition price_of (catalogue : dict float) (record : pyval)
  : option float :=
  match py_hash (field record "Product") with
  | Ok k => lookup k catalogue
  | Raise _ => None
  end.

Definition product_in_catalogue (catalogue : dict float) (record : pyval)
  : bool :=
  match price_of catalogue record with Some _ => true | None => false end.

(** A line that passes the four validations. *)
Definition valid_line (catalogue : dict float) (record : pyval) : bool :=
  sale_id_present record
  && product_present_nonempty record
  && quantity_parses record
  && product_in_catalogue catalogue record.

(** [catalogue[Product] * Quantity] of a line. *)
Definition line_value (catalogue : dict float) (record : pyval) : float :=
  match price_of catalogue record, py_int (field record "Quantity") with
  | Some price, Ok q => PyFloat.mul price (PyFloat.of_Z q)
  | _, _ => PyFloat.nan
  end.

(** The sum of floats from left to right, starting from [0.0]. *)
Definition float_sum (l : list float) : float :=
  fold_left PyFloat.add l PyFloat.zero.

(** The sum of the values of the valid lines, in input order. *)
Definition valid_lines_total (catalogue : dict float)
  (sales_records : list pyval) : float :=
  float_sum (map (line_value catalogue)
               (filter (valid_line catalogue) sales_records)).

(** No title of the catalogue is a number equal to zero ([0], [0.0] or
    [False]): so it is for a catalogue whose titles are strings and for
    every catalogue that [build_price_catalogue] returns. *)
Definition no_zero_title (catalogue : dict float) : Prop :=
  lookup (KInt 0) catalogue = None.

(** Every title of the catalogue is a string. *)
Definition string_titles (catalogue : dict float) : Prop :=
  forall k, In k (keys catalogue) -> exists s, k = KStr s.

(** ** Sample data *)

Module Sample.

Definition price_1_50 : float := PyFloat.of_decimal false 15 (-1).
Definition price_0_25 : float := PyFloat.of_decimal false 25 (-2).

(** The catalogue [{"Pen": 1.5, "Ink": 0.25}]. *)
Definition catalogue : dict float :=
  [(KStr "Pen", price_1_50); (KStr "Ink", price_0_25)].

Definition line (sale_id product quantity : pyval) : pyval :=
  PDict [("SALE_ID", sale_id); ("Product", product);
         ("Quantity", quantity)].

Definition dated_line (sale_id : pyval) (d : string)
  (product quantity : pyval) : pyval :=
  PDict [("SALE_ID", sale_id); ("SALE_Date", PStr d);
         ("Product", product); ("Quantity", quantity)].

(** Two sales, with an unknown product, a malformed quantity and a
    record without [SALE_ID] among their lines. *)
Definition sales_records : list pyval :=
  [ dated_line (PInt 1) "01/12/23" (PStr "Pen") (PInt 4);
    line (PInt 2) (PStr "Ink") (PStr "3");
    line (PInt 1) (PStr "Pencil") (PInt 2);
    dated_line (PInt 1) "02/12/23" (PStr "Ink") (PInt 2);
    line (PInt 2) (PStr "Pen") (PStr "abc");
    PDict [("Product", PStr "Pen"); ("Quantity", PInt 1)] ].

Definition item (p : string) (q : Z) (price lt : float) : line_item :=
  {| product := PStr p; quantity := q; unit_price := price;
     line_total := lt |}.

Definition sale_1 : sale :=
  {| date := PStr "01/12/23";
     items := [ item "Pen" 4 price_1_50 (PyFloat.of_Z 6);
                item "Ink" 2 price_0_25 (PyFloat.of_decimal false 5 (-1)) ];
     total := PyFloat.of_decimal false 65 (-1) |}.

Definition sale_2 : sale :=
  {| date := PStr "N/A";
     items := [ item "Ink" 3 price_0_25 (PyFloat.of_decimal false 75 (-2)) ];
     total := PyFloat.of_decimal false 75 (-2) |}.

Definition sale_totals : dict sale := [(KInt 1, sale_1); (KInt 2, sale_2)].

Definition grand_total : float := PyFloat.of_decimal false 725 (-2).

Definition warnings : list output :=
  [ WarnUnknownProduct (PStr "Pencil") 2;
    WarnInvalidQuantity 4 (PInt 2) (PStr "abc");
    WarnNoSaleId 5 ].

(** [{"SALE_ID": 0, "Product": "Pen", "Quantity": 4}] *)
Definition zero_id_fields : list (string * pyval) :=
  [("SALE_ID", PInt 0); ("Product", PStr "Pen"); ("Quantity", PInt 4)].

(** [{"SALE_ID": 2, "Product": "Ink", "Quantity": "3"}] *)
Definition string_quantity_fields : list (string * pyval) :=
  [("SALE_ID", PInt 2); ("Product", PStr "Ink"); ("Quantity", PStr "3")].

(** [{"SALE_ID": 2, "Product": "Pen", "Quantity": "abc"}] *)
Definition bad_quantity_fields : list (string * pyval) :=
  [("SALE_ID", PInt 2); ("Product", PStr "Pen"); ("Quantity", PStr "abc")].

Definition minus_3_9 : float := PyFloat.of_decimal true 39 (-1).

(** [{"SALE_ID": 7, "Product": "Pen", "Quantity": -3.9}] *)
Definition fractional_quantity_fields : list (string * pyval) :=
  [("SALE_ID", PInt 7); ("Product", PStr "Pen");
   ("Quantity", PFloat minus_3_9)].

End Sample.

(** ** A sample run of the program *)

Module SampleRun.

Definition products : pyval :=
  PList [ PDict [("title", PStr "Pen"); ("price", PFloat Sample.price_1_50)];
          PDict [("title", PStr "Ink"); ("price", PStr "0.25")] ].

Definition E : env :=
  {| read_json := fun filepath =>
       if String.eqb filepath "priceCatalogue.json" then Loaded products
       else if String.eqb filepath "salesRecord.json"
            then Loaded (PList Sample.sales_records)
            else FileNotFoundError;
     open_for_writing := fun _ => Written;
     start_time := PyFloat.of_Z 100;
     end_time := PyFloat.of_decimal false 1005 (-1) |}.

Definition argv : list string :=
  ["priceCatalogue.json"; "salesRecord.json"; "--detail"].

(** The report without the sales: title, grand total and elapsed time. *)
Definition summary : list report_line :=
  [ LTitle; LBlank; LSeparator; LGrandTotal Sample.grand_total; LSeparator;
    LElapsed (PyFloat.of_decimal false 5 (-1)); LSeparator ].

End SampleRun.

(** A product record whose price is the string ["nan"]. *)
Definition nan_priced : list pyval :=
  [ PDict [("title", PStr "Ink"); ("price", PStr "nan")] ].

(** The claim as the specification words it: every price of the
    catalogue is [>= 0]. *)
Definition catalogue_prices_nonnegative : Prop :=
  forall products w w' catalogue k p,
    build_price_catalogue products w = (w', Ok catalogue) ->
    lookup k catalogue = Some p ->
    PyFloat.geb p PyFloat.zero = true.

(** A run on an empty catalogue file. *)
Module EmptyCatalogue.

Definition E : env :=
  {| read_json := fun filepath =>
       if String.eqb filepath "priceCatalogue.json" then Loaded (PList [])
       else Loaded (PList Sample.sales_records);
     open_for_writing := fun _ => Written;
     start_time := PyFloat.of_Z 100;
     end_time := PyFloat.of_Z 101 |}.

Definition argv : list string := ["priceCatalogue.json"; "salesRecord.json"].

Definition args : Args.Namespace :=
  {| Args.catalogue := "priceCatalogue.json";
     Args.sales := "salesRecord.json";
     Args.total := true;
     Args.detail := false |}.

End EmptyCatalogue.

(** ** Records on which [compute_sales] cannot raise *)

Definition hashable (v : pyval) : bool :=
  match v with PList _ | PDict _ => false | _ => true end.

(** A quantity that is rejected or is an integer below [2^53] in
    magnitude (so that its float is exact). *)
Definition plain_quantity (v : pyval) : bool :=
  match py_int v with
  | Ok z => Z.ltb (Z.abs z) (2 ^ 53)
  | Raise ValueError | Raise TypeError => true
  | Raise _ => false
  end.

(** A JSON object whose [SALE_ID] and [Product] are no list or object and
    whose [Quantity] is plain. *)
Definition plain_record (record : pyval) : bool :=
  match record with
  | PDict _ =>
      hashable (field record "SALE_ID")
      && hashable (field record "Product")
      && plain_quantity (field record "Quantity")
  | _ => false
  end.

(** * Definitions for the further properties *)

(** ** One product record *)

(** What one turn of the loop of [build_price_catalogue] does with a
    product, whatever the catalogue so far: it rejects the product with a
    warning, raises, or stores a price under the key of the title. *)
Inductive product_verdict : Type :=
| Rejected (warning : nat -> output)
| Failed (e : exn)
| Stored (title : key) (price : float).

Definition examine_product (product : pyval) : product_verdict :=
  match product with
  | PDict _ =>
      let title := field product "title" in
      let price := field product "price" in
      if negb (truthy title) then Rejected WarnNoTitle
      else if is_None price then Rejected (fun _ => WarnNoPrice title)
      else
        match py_float price with
        | Raise ValueError | Raise TypeError =>
            Rejected (fun _ => WarnInvalidPrice title price)
        | Raise e => Failed e
        | Ok p =>
            if PyFloat.ltb p PyFloat.zero
            then Rejected (fun _ => WarnNegativePrice title)
            else match py_hash title with
                 | Ok k => Stored k p
                 | Raise e => Failed e
                 end
        end
  | _ => Failed AttributeError
  end.

(** The price that the last product stored under [k] gives, if any. *)
Fixpoint last_price (k : key) (products : list pyval) : option float :=
  match products with
  | [] => None
  | product :: rest =>
      match last_price k rest with
      | Some p => Some p
      | None =>
          match examine_product product with
          | Stored k' p => if key_eqb k k' then Some p else None
          | _ => None
          end
      end
  end.

(** The warnings of the items that a judge rejects, each with the index
    of its item, in the order of the items. *)
Fixpoint warnings_from {A : Type} (judge : A -> option (nat -> output))
  (idx : nat) (l : list A) : list output :=
  match l with
  | [] => []
  | x :: l' =>
      match judge x with
      | Some warning => warning idx :: warnings_from judge (S idx) l'
      | None => warnings_from judge (S idx) l'
      end
  end.



(** A key that a truthy value hashes to: a non-empty string or a number
    that is not zero. *)
Definition truthy_key (k : key) : bool :=
  match k with
  | KNone => false
  | KInt z => negb (Z.eqb z 0)
  | KFloat _ => true
  | KStr s => match s with EmptyString => false | _ => true end
  end.

(** ** Samples for the catalogue builder *)

Module Products.

Definition priced (title price : pyval) : pyval :=
  PDict [("title", title); ("price", price)].

(** Two prices for one title, a negative price, a product without title
    and a price that is no number. *)
Definition with_duplicates : list pyval :=
  [ priced (PStr "Pen") (PFloat Sample.price_1_50);
    priced (PStr "Ink") (PInt (-3));
    priced (PStr "Pen") (PStr "0.25");
    PDict [("price", PInt 2)];
    priced (PStr "Cap") (PStr "free") ].

Definition catalogue : dict float := [(KStr "Pen", Sample.price_0_25)].

Definition warnings : list output :=
  [ WarnNegativePrice (PStr "Ink");
    WarnNoTitle 3;
    WarnInvalidPrice (PStr "Cap") (PStr "free") ].

(** An integer beyond the range of a float. *)
Definition huge : Z := 10 ^ 400.

End Products.

(** A JSON object. *)
Definition is_object (v : pyval) : bool :=
  match v with PDict _ => true | _ => false end.

(** ** The lines of one sale *)

(** Whether the [SALE_ID] of a record is the key [k]. *)
Definition belongs (k : key) (record : pyval) : bool :=
  match py_hash (field record "SALE_ID") with
  | Ok k' => key_eqb k k'
  | Raise _ => false
  end.

(** The valid lines of the sale [k], in input order. *)
Definition lines_of (catalogue : dict float) (k : key)
  (sales_records : list pyval) : list pyval :=
  filter (fun r => valid_line catalogue r && belongs k r) sales_records.

(** The item that a valid line becomes. *)
Definition item_of (catalogue : dict float) (record : pyval) : line_item :=
  {| product := field record "Product";
     quantity := match py_int (field record "Quantity") with
                 | Ok q => q
                 | Raise _ => 0
                 end;
     unit_price := match price_of catalogue record with
                   | Some price => price
                   | None => PyFloat.nan
                   end;
     line_total := line_value catalogue record |}.

(** An item that agrees with the catalogue: its product is a title of
    the catalogue, its unit price the price there, and its line total the
    unit price times the quantity. *)
Definition item_consistent (catalogue : dict float) (item : line_item)
  : Prop :=
  exists kp,
    py_hash (product item) = Ok kp
    /\ lookup kp catalogue = Some (unit_price item)
    /\ line_total item
       = PyFloat.mul (unit_price item) (PyFloat.of_Z (quantity item)).

Definition sale_warning (catalogue : dict float) (record : pyval)
  : option (nat -> output) :=
  match examine catalogue record with
  | Skipped warning => Some warning
  | _ => None
  end.

Definition is_accepted (catalogue : dict float) (record : pyval) : bool :=
  match examine catalogue record with Accepted _ _ => true | _ => false end.

(** The number of items of all the sales. *)
Definition total_items (sale_totals : dict sale) : nat :=
  list_sum (map (fun kv => List.length (items (snd kv))) sale_totals).

(** A sale line whose quantity is [Infinity]. *)
Definition infinite_quantity_line : pyval :=
  PDict [("SALE_ID", PInt 9); ("Product", PStr "Pen");
         ("Quantity", PFloat PyFloat.inf)].

(** ** The detailed report *)


(** The last lines of every report. *)
Definition footer (grand_total elapsed : float) : list report_line :=
  [LSeparator; LGrandTotal grand_total; LSeparator; LElapsed elapsed;
   LSeparator].

(** The kind of a key for [<]: a string, a number, or [None]. *)
Inductive key_kind : Type := KindNone | KindNumber | KindString.

Definition kind (k : key) : key_kind :=
  match k with
  | KNone => KindNone
  | KInt _ | KFloat _ => KindNumber
  | KStr _ => KindString
  end.

(** Two sales in the order 2, 1. *)
Definition unordered_sales : dict sale :=
  [(KInt 2, Sample.sale_2); (KInt 1, Sample.sale_1)].

(** Sales under an integer and under a string. *)
Definition mixed_sales : dict sale :=
  [(KInt 2, Sample.sale_2); (KStr "A-1", Sample.sale_1)].

(** ** The command line *)





(** Whether the command line has an argument of a class. *)
Definition given (p : Argparse.arg_class -> bool) (argv : list string)
  : bool :=
  existsb (fun c => p (fst c)) (Argparse.classes argv).

(** ** A run of the program *)

(** A line of output that is part of the report: the report itself or
    the note that it was saved. *)
Definition is_report (o : output) : bool :=
  match o with
  | Results _ | ResultsSaved => true
  | _ => false
  end.

Definition quiet (o : output) : Prop := is_report o = false.

(** The report without the sales. *)
Definition summary_report (grand_total elapsed : float)
  : list report_line :=
  [LTitle; LBlank] ++ footer grand_total elapsed.

Definition elapsed_time (E : env) : float :=
  PyFloat.sub (end_time E) (start_time E).

(** An exception that is no [SystemExit]. *)
Definition no_exit (e : exn) : Prop :=
  match e with SystemExit _ => False | _ => True end.

(** A computation that prints no report line, touches no file and never
    raises [SystemExit]; what it prints and returns does not depend on
    the world. *)
Definition tame {A : Type} (m : M A) : Prop :=
  exists log r,
    Forall quiet log
    /\ (forall e, r = Raise e -> no_exit e)
    /\ forall w, m w = (emit log w, r).

(** The environment with another outcome of opening the results file. *)
Definition with_writer (E : env) (o : write_outcome) : env :=
  {| read_json := read_json E;
     open_for_writing := fun _ => o;
     start_time := start_time E;
     end_time := end_time E |}.

(** * Properties *)

(** ** Dictionaries *)

Lemma float_eqb_struct_eq (x y : float) :
  PyFloat.eqb_struct x y = true <-> x = y.
Proof.
  destruct x, y; simpl; try (split; [discriminate | congruence]);
    try (split; congruence).
  - rewrite Bool.eqb_true_iff. split; congruence.
  - rewrite Bool.eqb_true_iff. split; congruence.
  - rewrite !andb_true_iff, Bool.eqb_true_iff, Pos.eqb_eq, Z.eqb_eq.
    split; [intros [[-> ->] ->]; reflexivity | intros H; inversion H; auto].
Qed.

Lemma key_eqb_eq (a b : key) : key_eqb a b = true <-> a = b.
Proof.
  destruct a, b; simpl; try (split; [discriminate | congruence]).
  - split; reflexivity.
  - rewrite Z.eqb_eq. split; congruence.
  - rewrite float_eqb_struct_eq. split; congruence.
  - rewrite String.eqb_eq. split; congruence.
Qed.

Lemma key_eqb_refl (k : key) : key_eqb k k = true.
Proof. apply key_eqb_eq. reflexivity. Qed.

Lemma key_eqb_neq (a b : key) : a <> b -> key_eqb a b = false.
Proof.
  intros H. destruct (key_eqb a b) eqn:E; [|reflexivity].
  apply key_eqb_eq in E. contradiction.
Qed.

Section DictFacts.

Context {V : Type}.
Implicit Types (d : dict V) (k : key) (v : V).

Lemma lookup_setitem_same d k v : lookup k (setitem k v d) = Some v.
Proof.
  induction d as [|[k' v'] d IH]; simpl.
  - now rewrite key_eqb_refl.
  - destruct (key_eqb k k') eqn:E; simpl; rewrite E; auto.
Qed.

Lemma lookup_setitem_other d k k' v :
  k <> k' -> lookup k' (setitem k v d) = lookup k' d.
Proof.
  intros Hne. induction d as [|[k0 v0] d IH]; simpl.
  - rewrite key_eqb_neq; auto.
  - destruct (key_eqb k k0) eqn:E; simpl.
    + apply key_eqb_eq in E. subst k0.
      rewrite key_eqb_neq; auto.
    + now rewrite IH.
Qed.

Lemma setitem_setitem d k v v' :
  setitem k v' (setitem k v d) = setitem k v' d.
Proof.
  induction d as [|[k0 v0] d IH]; simpl.
  - now rewrite key_eqb_refl.
  - destruct (key_eqb k k0) eqn:E; simpl; rewrite E; congruence.
Qed.

(** A binding of [setitem k v d] is the new one or one of [d]. *)
Lemma lookup_setitem_inv d k k' v x :
  lookup k' (setitem k v d) = Some x ->
  (k' = k /\ x = v) \/ lookup k' d = Some x.
Proof.
  intros H. destruct (key_eqb k k') eqn:E.
  - apply key_eqb_eq in E. subst k'.
    rewrite lookup_setitem_same in H. left. split; congruence.
  - right. rewrite lookup_setitem_other in H; auto.
    intros ->. now rewrite key_eqb_refl in E.
Qed.

End DictFacts.

(** ** Effects *)

Lemma emit_nil (w : world) : emit [] w = w.
Proof. destruct w. unfold emit. simpl. now rewrite app_nil_r. Qed.

Lemma emit_emit (l1 l2 : list output) (w : world) :
  emit l2 (emit l1 w) = emit (l1 ++ l2) w.
Proof. unfold emit. simpl. now rewrite app_assoc. Qed.

Lemma prints_only_ret {A : Type} (a : A) : prints_only (ret a).
Proof. exists [], (Ok a). intros w. unfold ret. now rewrite emit_nil. Qed.

Lemma prints_only_raise {A : Type} (e : exn) : prints_only (@raise A e).
Proof. exists [], (Raise e). intros w. unfold raise. now rewrite emit_nil. Qed.

Lemma prints_only_lift {A : Type} (r : result A) : prints_only (lift r).
Proof. exists [], r. intros w. unfold lift. now rewrite emit_nil. Qed.

Lemma prints_only_print (o : output) : prints_only (print o).
Proof. exists [o], (Ok tt). intros w. reflexivity. Qed.

Lemma prints_only_bind {A B : Type} (m : M A) (f : A -> M B) :
  prints_only m -> (forall a, prints_only (f a)) -> prints_only (bind m f).
Proof.
  intros (log & r & Hm) Hf. destruct r as [a|e].
  - destruct (Hf a) as (log' & r' & Hfa).
    exists (log ++ log'), r'. intros w. unfold bind.
    now rewrite Hm, Hfa, emit_emit.
  - exists log, (Raise e). intros w. unfold bind. now rewrite Hm.
Qed.

Lemma prints_only_for_enumerate {A St : Type}
  (body : nat -> A -> St -> M St) :
  (forall idx x s, prints_only (body idx x s)) ->
  forall l idx s, prints_only (for_enumerate body idx l s).
Proof.
  intros Hbody l. induction l as [|x l IH]; intros idx s; simpl.
  - apply prints_only_ret.
  - apply prints_only_bind; auto.
Qed.

Create HintDb effects.
#[local] Hint Resolve prints_only_ret prints_only_raise prints_only_lift
  prints_only_print : effects.

Ltac prints_only_step :=
  match goal with
  | |- prints_only (bind _ _) => apply prints_only_bind; [|intros]
  | |- prints_only (if ?b then _ else _) => destruct b
  | |- prints_only (match ?x with _ => _ end) => destruct x
  | |- prints_only (let '(_, _) := ?p in _) => destruct p
  | |- prints_only _ => solve [auto with effects]
  end.

Lemma prints_only_build_price_catalogue (products : list pyval) :
  prints_only (build_price_catalogue products).
Proof.
  apply prints_only_for_enumerate. intros idx x s.
  unfold build_price_catalogue_body. repeat prints_only_step.
Qed.

Lemma prints_only_compute_sales (catalogue : dict float)
  (sales_records : list pyval) :
  prints_only (compute_sales catalogue sales_records).
Proof.
  apply prints_only_for_enumerate. intros idx x [st g].
  unfold compute_sales_body. repeat prints_only_step.
Qed.

(** The loop rule: an invariant of the items done so far and the loop
    state, kept by every turn that returns, holds when the loop returns. *)
Lemma for_enumerate_invariant {A St : Type}
  (body : nat -> A -> St -> M St) (I : list A -> St -> Prop) :
  (forall idx done x s w w' s',
      I done s -> body idx x s w = (w', Ok s') -> I (done ++ [x]) s') ->
  forall l done idx s w w' s',
    I done s ->
    for_enumerate body idx l s w = (w', Ok s') ->
    I (done ++ l) s'.
Proof.
  intros Hstep l. induction l as [|x l IH]; intros done idx s w w' s' HI H.
  - simpl in H. unfold ret in H. inversion H; subst.
    now rewrite app_nil_r.
  - simpl in H. unfold bind in H.
    destruct (body idx x s w) as [w1 [s1|e]] eqn:Hb; [|discriminate].
    replace (done ++ x :: l) with ((done ++ [x]) ++ l)
      by now rewrite <- app_assoc.
    eapply IH; eauto.
Qed.

(** ** One turn of the loop of [compute_sales] *)

(** The loop body does what [examine] says. *)
Lemma compute_sales_body_examine (catalogue : dict float) (idx : nat)
  (record : pyval) (st : dict sale) (g : float) (w : world) :
  compute_sales_body catalogue idx record (st, g) w =
  match examine catalogue record with
  | Skipped warning => (emit [warning idx] w, Ok (st, g))
  | Raised e => (w, Raise e)
  | Accepted k item =>
      (w, Ok (add_line k (sale_date record) item st,
              PyFloat.add g (line_total item)))
  end.
Proof.
  destruct record as [| | | | |l|d]; try reflexivity.
  unfold compute_sales_body, examine, field, get, bind, lift, ret, raise,
    contains, modify, getitem, store.
  cbv beta iota.
  destruct (is_None _); [reflexivity|].
  destruct (truthy _); cbn [negb]; cbv beta iota; [|reflexivity].
  destruct (py_int _) as [q|[]]; try reflexivity.
  destruct (py_hash (match assoc "Product" d with
                     | Some v => v | None => PNone end)) as [kp|e];
    [|reflexivity].
  destruct (lookup kp catalogue) as [price|]; cbn [negb]; cbv beta iota;
    [|reflexivity].
  destruct (float_mul_int price q) as [lt|e]; [|reflexivity].
  destruct (py_hash (match assoc "SALE_ID" d with
                     | Some v => v | None => PNone end)) as [k|e];
    [|reflexivity].
  unfold add_line, sale_date. cbn [line_total].
  destruct (lookup k st) as [s|] eqn:Hk; cbn [negb]; cbv beta iota.
  - rewrite Hk, lookup_setitem_same, setitem_setitem. reflexivity.
  - rewrite !lookup_setitem_same, !setitem_setitem. reflexivity.
Qed.

Lemma float_mul_int_value (x : float) (n : Z) (y : float) :
  float_mul_int x n = Ok y -> y = PyFloat.mul x (PyFloat.of_Z n).
Proof.
  unfold float_mul_int, float_of_int.
  destruct (PyFloat.is_finite _); [|discriminate]. congruence.
Qed.

Lemma truthy_present_nonempty (record : pyval) :
  truthy (field record "Product") = true ->
  product_present_nonempty record = true.
Proof.
  unfold product_present_nonempty.
  destruct (field record "Product") as [| | | |s|l|d]; simpl;
    congruence.
Qed.

(** A falsy product is missing, empty or a zero. *)
Lemma falsy_product (catalogue : dict float) (record : pyval) :
  no_zero_title catalogue ->
  truthy (field record "Product") = false ->
  product_present_nonempty record && product_in_catalogue catalogue record
  = false.
Proof.
  unfold no_zero_title, product_present_nonempty, product_in_catalogue,
    price_of.
  intros Hz. destruct (field record "Product") as [|b|z|f|s|l|d]; simpl;
    try reflexivity.
  - intros ->. simpl. now rewrite Hz.
  - rewrite negb_false_iff, Z.eqb_eq. intros ->. now rewrite Hz.
  - destruct f; try discriminate. intros _. simpl. now rewrite Hz.
  - destruct s; [reflexivity | discriminate].
  - destruct l; [reflexivity | discriminate].
  - destruct d; [reflexivity | discriminate].
Qed.

(** With no zero among the titles, the lines the loop takes are the valid
    lines, and it gives each its value. *)
Lemma examine_accepted_valid (catalogue : dict float) (record : pyval)
  (k : key) (item : line_item) :
  examine catalogue record = Accepted k item ->
  valid_line catalogue record = true
  /\ line_value catalogue record = line_total item
  /\ py_hash (field record "SALE_ID") = Ok k.
Proof.
  unfold examine, valid_line, sale_id_present, quantity_parses,
    product_in_catalogue, line_value, price_of.
  destruct record as [| | | | |l|d]; try discriminate.
  destruct (is_None _); [discriminate|].
  destruct (truthy _) eqn:Ht; simpl negb; cbv iota; [|discriminate].
  apply truthy_present_nonempty in Ht. rewrite Ht.
  destruct (py_int _) as [q|[]]; try discriminate.
  destruct (py_hash (field (PDict d) "Product")) as [kp|e]; [|discriminate].
  destruct (lookup kp catalogue) as [price|]; [|discriminate].
  destruct (float_mul_int price q) as [lt|e] eqn:Hm; [|discriminate].
  destruct (py_hash (field (PDict d) "SALE_ID")) as [k'|e]; [|discriminate].
  intros H. inversion H; subst. simpl.
  apply float_mul_int_value in Hm. auto.
Qed.

Lemma examine_skipped_invalid (catalogue : dict float) (record : pyval)
  (warning : nat -> output) :
  no_zero_title catalogue ->
  examine catalogue record = Skipped warning ->
  valid_line catalogue record = false.
Proof.
  intros Hz. unfold examine, valid_line.
  destruct record as [| | | | |l|d]; try discriminate.
  unfold sale_id_present.
  destruct (is_None _); [reflexivity|]. simpl negb. rewrite andb_true_l.
  destruct (truthy _) eqn:Ht; simpl negb; cbv iota.
  - unfold quantity_parses, product_in_catalogue, price_of.
    destruct (py_int _) as [q|[]]; try discriminate;
      try (intros _; now rewrite andb_false_r).
    destruct (py_hash (field (PDict d) "Product")) as [kp|e];
      [|discriminate].
    destruct (lookup kp catalogue) as [price|];
      [|intros _; now rewrite andb_false_r].
    destruct (float_mul_int price q); [|discriminate].
    destruct (py_hash (field (PDict d) "SALE_ID")); discriminate.
  - intros _. pose proof (falsy_product catalogue (PDict d) Hz Ht) as Hf.
    apply andb_false_iff in Hf. destruct Hf as [-> | ->].
    + reflexivity.
    + now rewrite andb_false_r.
Qed.

Lemma float_sum_snoc (l : list float) (x : float) :
  float_sum (l ++ [x]) = PyFloat.add (float_sum l) x.
Proof. unfold float_sum. now rewrite fold_left_app. Qed.

Lemma valid_lines_total_snoc (catalogue : dict float) (done : list pyval)
  (record : pyval) :
  valid_lines_total catalogue (done ++ [record]) =
  if valid_line catalogue record
  then PyFloat.add (valid_lines_total catalogue done)
         (line_value catalogue record)
  else valid_lines_total catalogue done.
Proof.
  unfold valid_lines_total. rewrite filter_app. simpl.
  destruct (valid_line catalogue record).
  - rewrite map_app. cbn [map]. now rewrite float_sum_snoc.
  - now rewrite app_nil_r.
Qed.

(** ** The sample run *)

Example sample_compute_sales :
  compute_sales Sample.catalogue Sample.sales_records initial =
  (emit Sample.warnings initial,
   Ok (Sample.sale_totals, Sample.grand_total)).
Proof. vm_compute. reflexivity. Qed.

(** ** The grand total *)

(** One turn of the loop keeps the grand total equal to the sum over the
    valid lines among the records done. *)
Lemma grand_total_step (catalogue : dict float) (idx : nat)
  (done : list pyval) (record : pyval) (acc acc' : dict sale * float)
  (w w' : world) :
  no_zero_title catalogue ->
  snd acc = valid_lines_total catalogue done ->
  compute_sales_body catalogue idx record acc w = (w', Ok acc') ->
  snd acc' = valid_lines_total catalogue (done ++ [record]).
Proof.
  intros Hz HI Hb. destruct acc as [st g], acc' as [st' g'].
  simpl in HI. rewrite compute_sales_body_examine in Hb.
  simpl. rewrite valid_lines_total_snoc.
  destruct (examine catalogue record) as [warning|e|k item] eqn:Hx.
  - inversion Hb; subst.
    now rewrite (examine_skipped_invalid _ _ _ Hz Hx).
  - discriminate.
  - inversion Hb; subst.
    destruct (examine_accepted_valid _ _ _ _ Hx) as (-> & -> & _).
    reflexivity.
Qed.

(** C2: the grand total that [compute_sales] returns is the sum, in
    input order, of [catalogue[Product] * Quantity] over exactly the lines
    that pass the four validations.  The catalogue is one none of whose
    titles is a zero: a catalogue whose titles are strings, as the data
    model has it, or one that [build_price_catalogue] returned. *)
Theorem grand_total_is_sum_of_valid_lines
  (catalogue : dict float) (sales_records : list pyval) (w w' : world)
  (sale_totals : dict sale) (grand_total : float) :
  no_zero_title catalogue ->
  compute_sales catalogue sales_records w
  = (w', Ok (sale_totals, grand_total)) ->
  grand_total = valid_lines_total catalogue sales_records.
Proof.
  intros Hz H. unfold compute_sales in H.
  pose (I := fun (done : list pyval) (acc : dict sale * float) =>
               snd acc = valid_lines_total catalogue done).
  assert (Hstep : forall idx done x acc w w' acc',
             I done acc ->
             compute_sales_body catalogue idx x acc w = (w', Ok acc') ->
             I (done ++ [x]) acc')
    by (intros; eapply grand_total_step; eauto).
  assert (H0 : I [] ([], PyFloat.zero)) by reflexivity.
  exact (for_enumerate_invariant _ I Hstep _ _ _ _ _ _ _ H0 H).
Qed.

Lemma grand_total_is_sum_of_valid_lines_witness :
  no_zero_title Sample.catalogue
  /\ compute_sales Sample.catalogue Sample.sales_records initial
     = (emit Sample.warnings initial,
        Ok (Sample.sale_totals, Sample.grand_total))
  /\ Sample.grand_total
     = valid_lines_total Sample.catalogue Sample.sales_records.
Proof.
  assert (H1 : no_zero_title Sample.catalogue) by reflexivity.
  assert (H2 : compute_sales Sample.catalogue Sample.sales_records initial
               = (emit Sample.warnings initial,
                  Ok (Sample.sale_totals, Sample.grand_total)))
    by (vm_compute; reflexivity).
  split; [exact H1 | split; [exact H2 |]].
  exact (grand_total_is_sum_of_valid_lines _ _ _ _ _ _ H1 H2).
Defined.

(** ** The total of a sale *)

Lemma add_line_lookup (k k' : key) (d : pyval) (item : line_item)
  (st : dict sale) :
  lookup k' (add_line k d item st) =
  if key_eqb k k'
  then Some (add_total (line_total item)
               (append_item item
                  match lookup k st with
                  | Some s => s
                  | None => new_sale d
                  end))
  else lookup k' st.
Proof.
  unfold add_line. destruct (key_eqb k k') eqn:E.
  - apply key_eqb_eq in E. subst k'. apply lookup_setitem_same.
  - apply lookup_setitem_other. intros ->. now rewrite key_eqb_refl in E.
Qed.

(** C4: the [total] of every sale in the result of [compute_sales] is the
    sum of [line_total] over its [items], added from left to right. *)
Theorem sale_total_is_sum_of_items
  (catalogue : dict float) (sales_records : list pyval) (w w' : world)
  (sale_totals : dict sale) (grand_total : float) (k : key) (s : sale) :
  compute_sales catalogue sales_records w
  = (w', Ok (sale_totals, grand_total)) ->
  lookup k sale_totals = Some s ->
  total s = float_sum (map line_total (items s)).
Proof.
  intros H. unfold compute_sales in H.
  pose (I := fun (_ : list pyval) (st : dict sale * float) =>
               forall k s, lookup k (fst st) = Some s ->
                           total s = float_sum (map line_total (items s))).
  assert (Hstep : forall idx done x st w w' st',
             I done st ->
             compute_sales_body catalogue idx x st w = (w', Ok st') ->
             I (done ++ [x]) st');
    [| assert (H0 : I [] ([], PyFloat.zero)) by (intros ? ? ?; discriminate);
       exact (for_enumerate_invariant _ I Hstep _ _ _ _ _ _ _ H0 H k s) ].
  clear. subst I. intros idx _ record [st g] w0 w1 [st' g'] HI Hb k s.
  simpl in HI |- *. rewrite compute_sales_body_examine in Hb.
  destruct (examine catalogue record) as [warning|e|k0 item];
    inversion Hb; subst; [apply HI|].
  rewrite add_line_lookup. destruct (key_eqb k0 k); [|apply HI].
  intros E. inversion E; subst; clear E. simpl.
  rewrite map_app. cbn [map]. rewrite float_sum_snoc. f_equal.
  destruct (lookup k0 st) as [s0|] eqn:Hk; [eauto | reflexivity].
Qed.

Lemma sale_total_is_sum_of_items_witness :
  compute_sales Sample.catalogue Sample.sales_records initial
  = (emit Sample.warnings initial,
     Ok (Sample.sale_totals, Sample.grand_total))
  /\ lookup (KInt 1) Sample.sale_totals = Some Sample.sale_1
  /\ total Sample.sale_1
     = float_sum (map line_total (items Sample.sale_1)).
Proof.
  assert (H1 : compute_sales Sample.catalogue Sample.sales_records initial
               = (emit Sample.warnings initial,
                  Ok (Sample.sale_totals, Sample.grand_total)))
    by (vm_compute; reflexivity).
  assert (H2 : lookup (KInt 1) Sample.sale_totals = Some Sample.sale_1)
    by reflexivity.
  split; [exact H1 | split; [exact H2 |]].
  exact (sale_total_is_sum_of_items _ _ _ _ _ _ _ _ H1 H2).
Defined.

(** ** Determinism *)

(** What a computation that only prints returns is the same in every
    world. *)
Lemma prints_only_result {A : Type} (m : M A) (w w' : world) :
  prints_only m -> snd (m w) = snd (m w').
Proof. intros (log & r & H). now rewrite !H. Qed.

(** C9: [compute_sales] called again on the same catalogue and the same
    sales records, in the world the first call left, returns what the
    first call returned: the same sales and the same grand total (or the
    same exception). *)
Theorem compute_sales_twice_same_result
  (catalogue : dict float) (sales_records : list pyval) (w : world) :
  let first := compute_sales catalogue sales_records w in
  let second := compute_sales catalogue sales_records (fst first) in
  snd second = snd first.
Proof.
  cbv zeta. apply prints_only_result, prints_only_compute_sales.
Qed.

(** Both calls print the same warnings, and neither writes a file. *)
Lemma compute_sales_twice_same_output
  (catalogue : dict float) (sales_records : list pyval) (w : world) :
  exists log,
    fst (compute_sales catalogue sales_records w) = emit log w
    /\ fst (compute_sales catalogue sales_records (emit log w))
       = emit log (emit log w).
Proof.
  destruct (prints_only_compute_sales catalogue sales_records)
    as (log & r & H).
  exists log. now rewrite !H.
Qed.

(** ** Integers that a float holds exactly *)

Lemma digits2_pos_iter_xO (m p : positive) :
  digits2_pos (Pos.iter xO m p) = (digits2_pos m + p)%positive.
Proof.
  induction p as [|p IH] using Pos.peano_ind.
  - simpl. now rewrite Pos.add_1_r.
  - rewrite Pos.iter_succ. simpl. rewrite IH. now rewrite Pos.add_succ_r.
Qed.

Lemma digits2_pos_upper (m : positive) :
  Zpos m < 2 ^ Zpos (digits2_pos m).
Proof.
  induction m as [m IH|m IH|]; simpl digits2_pos.
  - rewrite Pos2Z.inj_succ, Z.pow_succ_r by lia. lia.
  - rewrite Pos2Z.inj_succ, Z.pow_succ_r by lia. lia.
  - reflexivity.
Qed.

Lemma digits2_pos_lower (m : positive) :
  2 ^ (Zpos (digits2_pos m) - 1) <= Zpos m.
Proof.
  induction m as [m IH|m IH|]; simpl digits2_pos.
  - rewrite Pos2Z.inj_succ.
    replace (Z.succ (Zpos (digits2_pos m)) - 1)
      with (Z.succ (Zpos (digits2_pos m) - 1)) by lia.
    rewrite Z.pow_succ_r by lia. lia.
  - rewrite Pos2Z.inj_succ.
    replace (Z.succ (Zpos (digits2_pos m)) - 1)
      with (Z.succ (Zpos (digits2_pos m) - 1)) by lia.
    rewrite Z.pow_succ_r by lia. lia.
  - simpl. lia.
Qed.

Lemma digits2_pos_le (m : positive) (k : Z) :
  Zpos m < 2 ^ k -> Zpos (digits2_pos m) <= k.
Proof.
  intros H. destruct (Z_le_gt_dec (Zpos (digits2_pos m)) k) as [|Hgt]; auto.
  exfalso. pose proof (digits2_pos_lower m) as Hl.
  assert (2 ^ k <= 2 ^ (Zpos (digits2_pos m) - 1)).
  { destruct (Z_lt_le_dec k 0).
    - rewrite (Z.pow_neg_r 2 k) by lia. apply Z.pow_nonneg. lia.
    - apply Z.pow_le_mono_r; lia. }
  lia.
Qed.

(** A mantissa in canonical position is its own rounding. *)
Lemma binary_round_aux_canonical (sx : bool) (m : positive) (e : Z) :
  Zpos (digits2_pos m) = PyFloat.prec ->
  e <= PyFloat.emax - PyFloat.prec ->
  - 1074 <= e ->
  binary_round_aux PyFloat.prec PyFloat.emax sx (Zpos m) e loc_Exact
  = S754_finite sx m e.
Proof.
  unfold PyFloat.prec, PyFloat.emax. intros Hd He He'.
  unfold binary_round_aux, shr_fexp, fexp, emin.
  cbn [Zdigits2 shr_record_of_loc]. rewrite Hd.
  replace (Z.max (53 + e - 53) (3 - 1024 - 53) - e) with 0 by lia.
  cbn [shr shr_m loc_of_shr_record round_nearest_even Zdigits2
       shr_record_of_loc].
  rewrite Hd.
  replace (Z.max (53 + e - 53) (3 - 1024 - 53) - e) with 0 by lia.
  cbn [shr shr_m].
  destruct (Z.leb_spec e (1024 - 53)); [reflexivity | lia].
Qed.

Lemma of_Z_finite (z : Z) :
  Z.abs z < 2 ^ 53 -> PyFloat.is_finite (PyFloat.of_Z z) = true.
Proof.
  intros Hz. unfold PyFloat.of_Z, binary_normalize.
  destruct z as [|m|m]; [reflexivity| |];
    (assert (Hd : Zpos (digits2_pos m) <= 53)
       by (apply digits2_pos_le; simpl in Hz; lia));
    unfold binary_round, shl_align, fexp, emin, PyFloat.prec, PyFloat.emax;
    (replace (Z.max (Zpos (digits2_pos m) + 0 - 53) (3 - 1024 - 53))
       with (Zpos (digits2_pos m) - 53) by lia);
    (destruct (Zpos (digits2_pos m) - 53 - 0) as [|p|p] eqn:Hp; [| lia |]).
  - replace (Zpos (digits2_pos m) - 53) with 0 by lia.
    rewrite binary_round_aux_canonical; [reflexivity | | |];
      unfold PyFloat.prec, PyFloat.emax; lia.
  - rewrite binary_round_aux_canonical; [reflexivity | | |];
      unfold PyFloat.prec, PyFloat.emax;
      rewrite ?digits2_pos_iter_xO; lia.
  - replace (Zpos (digits2_pos m) - 53) with 0 by lia.
    rewrite binary_round_aux_canonical; [reflexivity | | |];
      unfold PyFloat.prec, PyFloat.emax; lia.
  - rewrite binary_round_aux_canonical; [reflexivity | | |];
      unfold PyFloat.prec, PyFloat.emax;
      rewrite ?digits2_pos_iter_xO; lia.
Qed.

(** The integer part of a binary64 number that has a fractional part is
    below [2^53]. *)
Lemma trunc_fractional_small (f : float) (z : Z) :
  valid_binary PyFloat.prec PyFloat.emax f = true ->
  PyFloat.is_integer f = false ->
  PyFloat.trunc f = Some z ->
  Z.abs z < 2 ^ 53.
Proof.
  destruct f as [s|s| |s m e]; try discriminate.
  destruct e as [|e|k]; try discriminate.
  unfold valid_binary, bounded, canonical_mantissa, fexp, emin,
    PyFloat.prec, PyFloat.emax.
  rewrite andb_true_iff, Z.eqb_eq. intros [Hc _] _ H.
  assert (Hd : Zpos (digits2_pos m) <= 53) by lia.
  assert (Hm : Zpos m < 2 ^ 53).
  { pose proof (digits2_pos_upper m).
    assert (2 ^ Zpos (digits2_pos m) <= 2 ^ 53)
      by (apply Z.pow_le_mono_r; lia).
    lia. }
  simpl in H. rewrite Z.shiftr_div_pow2 in H by lia.
  assert (Hp : 0 < 2 ^ Zpos k) by (apply Z.pow_pos_nonneg; lia).
  assert (0 <= Zpos m / 2 ^ Zpos k <= Zpos m).
  { split.
    - apply Z.div_pos; lia.
    - apply Z.div_le_upper_bound; [exact Hp | nia]. }
  inversion H; subst. destruct s; lia.
Qed.

Lemma float_of_int_trunc_fractional (f : float) :
  valid_binary PyFloat.prec PyFloat.emax f = true ->
  PyFloat.is_integer f = false ->
  PyFloat.is_finite f = true ->
  exists z, PyFloat.trunc f = Some z
            /\ float_of_int z = Ok (PyFloat.of_Z z).
Proof.
  intros Hv Hi Hf.
  destruct (PyFloat.trunc f) as [z|] eqn:Ht.
  - exists z. split; [reflexivity|]. unfold float_of_int.
    now rewrite (of_Z_finite z (trunc_fractional_small f z Hv Hi Ht)).
  - destruct f; discriminate.
Qed.

(** ** Lines that are taken *)

(** A record with a [SALE_ID], a product of the catalogue and a quantity
    that [int] accepts is taken. *)
Lemma examine_accepts (catalogue : dict float) (d : list (string * pyval))
  (k kp : key) (q : Z) (price lt : float) :
  let record := PDict d in
  is_None (field record "SALE_ID") = false ->
  py_hash (field record "SALE_ID") = Ok k ->
  truthy (field record "Product") = true ->
  py_hash (field record "Product") = Ok kp ->
  lookup kp catalogue = Some price ->
  py_int (field record "Quantity") = Ok q ->
  float_mul_int price q = Ok lt ->
  examine catalogue record =
  Accepted k {| product := field record "Product"; quantity := q;
                unit_price := price; line_total := lt |}.
Proof.
  cbv zeta. intros Hs Hk Ht Hkp Hp Hq Hm. unfold examine.
  now rewrite Hs, Ht, Hq, Hkp, Hp, Hm, Hk.
Qed.

Lemma emit_one_neq (o : output) (w : world) : emit [o] w <> w.
Proof.
  intros H. apply (f_equal stdout) in H. simpl in H.
  apply (f_equal (@List.length output)) in H. rewrite List.length_app in H.
  simpl in H. lia.
Qed.

Lemma emit_one_inj (o o' : output) (w : world) :
  emit [o] w = emit [o'] w -> o = o'.
Proof.
  intros H. apply (f_equal stdout) in H. simpl in H.
  apply app_inv_head in H. congruence.
Qed.

Lemma field_assoc (d : list (string * pyval)) (name : string) (v : pyval) :
  assoc name d = Some v -> field (PDict d) name = v.
Proof. intros H. unfold field. now rewrite H. Qed.

Lemma is_None_false (v : pyval) : v <> PNone -> is_None v = false.
Proof. destruct v; simpl; congruence. Qed.

(** The first check skips a record exactly when [record.get("SALE_ID")]
    is [None]. *)
Lemma skipped_for_sale_id_iff (catalogue : dict float) (idx : nat)
  (d : list (string * pyval)) (st : dict sale) (g : float) (w : world) :
  compute_sales_body catalogue idx (PDict d) (st, g) w
  = (emit [WarnNoSaleId idx] w, Ok (st, g))
  <-> field (PDict d) "SALE_ID" = PNone.
Proof.
  rewrite compute_sales_body_examine. unfold examine.
  destruct (field (PDict d) "SALE_ID") eqn:Hs; simpl is_None; cbv iota;
    try (split; [reflexivity | reflexivity]);
    (split; [|discriminate]); intros H; exfalso;
    repeat match type of H with
      | (if ?b then _ else _) = _ => destruct b
      | match match ?x with _ => _ end with _ => _ end = _ => destruct x
      | (emit [?o] w, _) = (emit [?o'] w, _) =>
          assert (o = o') by (apply (emit_one_inj o o' w); congruence);
          discriminate
      | (w, _) = (emit [?o] w, _) =>
          apply (emit_one_neq o w); congruence
      | (_, Raise _) = (_, Ok _) => discriminate
      end.
Qed.

(** ** A falsy [SALE_ID] *)

(** C6: the [SALE_ID] check skips a record only when
    [record.get("SALE_ID")] is [None], which is so for a missing key (and
    for JSON [null], which [get] cannot tell from it).  A record whose
    [SALE_ID] is present with a falsy value (0, 0.0, [False], an empty
    string, list or object) is not skipped by that check: the [Product]
    check decides next, and the record is taken when the remaining checks
    pass. *)
Theorem falsy_sale_id_is_not_skipped
  (catalogue : dict float) (idx : nat) (d : list (string * pyval))
  (st : dict sale) (g : float) (w : world) (sale_id : pyval) :
  let record := PDict d in
  assoc "SALE_ID" d = Some sale_id ->
  sale_id <> PNone ->
  truthy sale_id = false ->
  (forall d' : list (string * pyval),
      compute_sales_body catalogue idx (PDict d') (st, g) w
      = (emit [WarnNoSaleId idx] w, Ok (st, g))
      <-> field (PDict d') "SALE_ID" = PNone)
  /\ compute_sales_body catalogue idx record (st, g) w
     <> (emit [WarnNoSaleId idx] w, Ok (st, g))
  /\ (truthy (field record "Product") = false ->
      compute_sales_body catalogue idx record (st, g) w
      = (emit [WarnNoProduct idx sale_id] w, Ok (st, g)))
  /\ (forall k kp q price lt,
         py_hash sale_id = Ok k ->
         truthy (field record "Product") = true ->
         py_hash (field record "Product") = Ok kp ->
         lookup kp catalogue = Some price ->
         py_int (field record "Quantity") = Ok q ->
         float_mul_int price q = Ok lt ->
         compute_sales_body catalogue idx record (st, g) w
         = (w, Ok (add_line k (sale_date record)
                     {| product := field record "Product"; quantity := q;
                        unit_price := price; line_total := lt |} st,
                   PyFloat.add g lt))).
Proof.
  cbv zeta. intros Ha Hn _. pose proof (field_assoc _ _ _ Ha) as Hf.
  pose proof (is_None_false _ Hn) as Hi.
  split; [|split; [|split]].
  - intros d'. apply skipped_for_sale_id_iff.
  - rewrite skipped_for_sale_id_iff. congruence.
  - intros Hp. rewrite compute_sales_body_examine. unfold examine.
    now rewrite Hf, Hi, Hp.
  - intros k kp q price lt Hk Ht Hkp Hl Hq Hm.
    rewrite compute_sales_body_examine.
    rewrite (examine_accepts catalogue d k kp q price lt);
      try assumption; [reflexivity | | ]; now rewrite Hf.
Qed.

Lemma falsy_sale_id_is_not_skipped_witness :
  assoc "SALE_ID" Sample.zero_id_fields = Some (PInt 0)
  /\ PInt 0 <> PNone
  /\ truthy (PInt 0) = false
  /\ compute_sales_body Sample.catalogue 0 (PDict Sample.zero_id_fields)
       ([], PyFloat.zero) initial
     = (initial,
        Ok (add_line (KInt 0) (PStr "N/A")
              (Sample.item "Pen" 4 Sample.price_1_50 (PyFloat.of_Z 6)) [],
            PyFloat.add PyFloat.zero (PyFloat.of_Z 6))).
Proof.
  assert (Ha : assoc "SALE_ID" Sample.zero_id_fields = Some (PInt 0))
    by reflexivity.
  assert (Hn : PInt 0 <> PNone) by discriminate.
  assert (Ht : truthy (PInt 0) = false) by reflexivity.
  repeat (split; [assumption|]).
  pose proof (falsy_sale_id_is_not_skipped Sample.catalogue 0 _
                [] PyFloat.zero initial (PInt 0) Ha Hn Ht)
    as (_ & _ & _ & H).
  apply (H (KInt 0) (KStr "Pen") 4 Sample.price_1_50 (PyFloat.of_Z 6));
    vm_compute; reflexivity.
Defined.

(** ** Quantities *)

(** C7: a record whose [Quantity] is the string ["3"], with a [SALE_ID]
    and a product of the catalogue, is taken with the integer quantity 3;
    a record whose [Quantity] is ["abc"] is skipped with one warning, the
    warning of the quantity check when the record passes the two checks
    before it. *)
Theorem quantity_string_is_parsed
  (catalogue : dict float) (idx : nat) (d : list (string * pyval))
  (st : dict sale) (g : float) (w : world) :
  let record := PDict d in
  (assoc "Quantity" d = Some (PStr "3") ->
   forall k kp price,
     is_None (field record "SALE_ID") = false ->
     py_hash (field record "SALE_ID") = Ok k ->
     truthy (field record "Product") = true ->
     py_hash (field record "Product") = Ok kp ->
     lookup kp catalogue = Some price ->
     compute_sales_body catalogue idx record (st, g) w
     = (w, Ok (add_line k (sale_date record)
                 {| product := field record "Product"; quantity := 3;
                    unit_price := price;
                    line_total := PyFloat.mul price (PyFloat.of_Z 3) |} st,
               PyFloat.add g (PyFloat.mul price (PyFloat.of_Z 3)))))
  /\ (assoc "Quantity" d = Some (PStr "abc") ->
      exists warning,
        compute_sales_body catalogue idx record (st, g) w
        = (emit [warning] w, Ok (st, g))
        /\ (is_None (field record "SALE_ID") = false ->
            truthy (field record "Product") = true ->
            warning = WarnInvalidQuantity idx (field record "SALE_ID")
                        (PStr "abc"))).
Proof.
  cbv zeta. split.
  - intros Hq k kp price Hs Hk Ht Hkp Hl.
    rewrite compute_sales_body_examine.
    rewrite (examine_accepts catalogue d k kp 3 price
               (PyFloat.mul price (PyFloat.of_Z 3))); try assumption.
    + reflexivity.
    + now rewrite (field_assoc _ _ _ Hq).
    + reflexivity.
  - intros Hq. rewrite compute_sales_body_examine. unfold examine.
    rewrite (field_assoc _ _ _ Hq).
    destruct (is_None _); [eexists; split; [reflexivity | discriminate]|].
    destruct (truthy _); cbn [negb]; cbv iota;
      [|eexists; split; [reflexivity | discriminate]].
    replace (py_int (PStr "abc")) with (@Raise Z ValueError)
      by (vm_compute; reflexivity).
    eexists. split; reflexivity.
Qed.

Lemma quantity_string_is_parsed_witness :
  assoc "Quantity" Sample.string_quantity_fields = Some (PStr "3")
  /\ compute_sales_body Sample.catalogue 1
       (PDict Sample.string_quantity_fields) ([], PyFloat.zero) initial
     = (initial,
        Ok ([(KInt 2, Sample.sale_2)],
            PyFloat.add PyFloat.zero (PyFloat.of_decimal false 75 (-2))))
  /\ assoc "Quantity" Sample.bad_quantity_fields = Some (PStr "abc")
  /\ compute_sales_body Sample.catalogue 4
       (PDict Sample.bad_quantity_fields) ([], PyFloat.zero) initial
     = (emit [WarnInvalidQuantity 4 (PInt 2) (PStr "abc")] initial,
        Ok ([], PyFloat.zero)).
Proof.
  assert (Hq : assoc "Quantity" Sample.string_quantity_fields
               = Some (PStr "3")) by reflexivity.
  assert (Hb : assoc "Quantity" Sample.bad_quantity_fields
               = Some (PStr "abc")) by reflexivity.
  pose proof (quantity_string_is_parsed Sample.catalogue 1
                Sample.string_quantity_fields [] PyFloat.zero initial)
    as [H _].
  pose proof (quantity_string_is_parsed Sample.catalogue 4
                Sample.bad_quantity_fields [] PyFloat.zero initial)
    as [_ H'].
  split; [exact Hq | split; [| split; [exact Hb|]]].
  - refine (eq_trans (H Hq (KInt 2) (KStr "Ink") Sample.price_0_25
                        eq_refl eq_refl eq_refl eq_refl eq_refl) _).
    vm_compute. reflexivity.
  - destruct (H' Hb) as (warning & Hw & Hk).
    rewrite (Hk eq_refl eq_refl) in Hw. exact Hw.
Defined.

(** C10: a record whose [Quantity] is a binary64 number with a fractional
    part, with a [SALE_ID] and a product of the catalogue, is not skipped:
    it is taken with the quantity truncated toward zero, and its line
    total is the unit price times that integer. *)
Theorem fractional_quantity_is_truncated
  (catalogue : dict float) (idx : nat) (d : list (string * pyval))
  (st : dict sale) (g : float) (w : world) (f : float)
  (k kp : key) (price : float) :
  let record := PDict d in
  assoc "Quantity" d = Some (PFloat f) ->
  valid_binary PyFloat.prec PyFloat.emax f = true ->
  PyFloat.is_finite f = true ->
  PyFloat.is_integer f = false ->
  is_None (field record "SALE_ID") = false ->
  py_hash (field record "SALE_ID") = Ok k ->
  truthy (field record "Product") = true ->
  py_hash (field record "Product") = Ok kp ->
  lookup kp catalogue = Some price ->
  exists z,
    PyFloat.trunc f = Some z
    /\ compute_sales_body catalogue idx record (st, g) w
       = (w, Ok (add_line k (sale_date record)
                   {| product := field record "Product"; quantity := z;
                      unit_price := price;
                      line_total := PyFloat.mul price (PyFloat.of_Z z) |}
                   st,
                 PyFloat.add g (PyFloat.mul price (PyFloat.of_Z z)))).
Proof.
  cbv zeta. intros Hq Hv Hfin Hint Hs Hk Ht Hkp Hl.
  destruct (float_of_int_trunc_fractional f Hv Hint Hfin) as (z & Hz & Hc).
  exists z. split; [exact Hz|].
  rewrite compute_sales_body_examine.
  rewrite (examine_accepts catalogue d k kp z price
             (PyFloat.mul price (PyFloat.of_Z z))); try assumption.
  - reflexivity.
  - rewrite (field_assoc _ _ _ Hq). simpl. now rewrite Hz.
  - unfold float_mul_int. now rewrite Hc.
Qed.

Lemma fractional_quantity_is_truncated_witness :
  assoc "Quantity" Sample.fractional_quantity_fields
  = Some (PFloat Sample.minus_3_9)
  /\ exists z,
      PyFloat.trunc Sample.minus_3_9 = Some z
      /\ z = -3
      /\ compute_sales_body Sample.catalogue 0
           (PDict Sample.fractional_quantity_fields) ([], PyFloat.zero)
           initial
         = (initial,
            Ok (add_line (KInt 7) (PStr "N/A")
                  {| product := PStr "Pen"; quantity := z;
                     unit_price := Sample.price_1_50;
                     line_total :=
                       PyFloat.mul Sample.price_1_50 (PyFloat.of_Z z) |} [],
                PyFloat.add PyFloat.zero
                  (PyFloat.mul Sample.price_1_50 (PyFloat.of_Z z)))).
Proof.
  assert (Hq : assoc "Quantity" Sample.fractional_quantity_fields
               = Some (PFloat Sample.minus_3_9)) by reflexivity.
  split; [exact Hq|].
  destruct (fractional_quantity_is_truncated Sample.catalogue 0
              Sample.fractional_quantity_fields [] PyFloat.zero initial
              Sample.minus_3_9 (KInt 7) (KStr "Pen") Sample.price_1_50
              Hq eq_refl eq_refl eq_refl eq_refl eq_refl eq_refl eq_refl
              eq_refl) as (z & Hz & H).
  exists z. split; [exact Hz|]. split; [|exact H].
  vm_compute in Hz. congruence.
Defined.

(** ** [compute_sales] returns *)

Lemma hashable_py_hash (v : pyval) :
  hashable v = true -> exists k, py_hash v = Ok k.
Proof.
  destruct v as [|b|z|f|s|l|d]; try discriminate; intros _; simpl;
    eauto.
  destruct (PyFloat.is_integer f); [|eauto].
  destruct (PyFloat.trunc f); eauto.
Qed.

Lemma plain_record_not_raised (catalogue : dict float) (record : pyval) :
  plain_record record = true ->
  forall e, examine catalogue record <> Raised e.
Proof.
  destruct record as [| | | | |l|d]; try discriminate.
  unfold plain_record, plain_quantity, examine.
  rewrite !andb_true_iff. intros [[Hs Hp] Hq] e.
  destruct (hashable_py_hash _ Hs) as [k Hk].
  destruct (hashable_py_hash _ Hp) as [kp Hkp].
  rewrite Hk, Hkp.
  destruct (is_None _); [discriminate|].
  destruct (negb _); [discriminate|].
  destruct (py_int _) as [q|[]]; try discriminate.
  destruct (lookup kp catalogue) as [price|]; [|discriminate].
  unfold float_mul_int, float_of_int.
  rewrite of_Z_finite by (apply Z.ltb_lt; exact Hq).
  discriminate.
Qed.

(** On plain records the loop of [compute_sales] runs to its end: it
    returns the sales and the grand total, whatever the catalogue. *)
Lemma compute_sales_returns (catalogue : dict float)
  (sales_records : list pyval) :
  forallb plain_record sales_records = true ->
  exists log sale_totals grand_total,
    forall w, compute_sales catalogue sales_records w
              = (emit log w, Ok (sale_totals, grand_total)).
Proof.
  unfold compute_sales. generalize 0%nat, (@nil (key * sale)), PyFloat.zero.
  induction sales_records as [|record l IH]; intros idx st g Hall.
  - exists [], st, g. intros w. simpl. unfold ret. now rewrite emit_nil.
  - simpl in Hall. apply andb_true_iff in Hall. destruct Hall as [Hr Hl].
    pose proof (plain_record_not_raised catalogue record Hr) as Hx.
    cbn [for_enumerate].
    destruct (examine catalogue record) as [warning|e|k item] eqn:E.
    + destruct (IH (S idx) st g Hl) as (log & st' & g' & H).
      exists ([warning idx] ++ log), st', g'. intros w. unfold bind.
      rewrite compute_sales_body_examine, E, H. now rewrite emit_emit.
    + now destruct (Hx e).
    + destruct (IH (S idx) (add_line k (sale_date record) item st)
                  (PyFloat.add g (line_total item)) Hl)
        as (log & st' & g' & H).
      exists log, st', g'. intros w. unfold bind.
      now rewrite compute_sales_body_examine, E, H.
Qed.

(** ** The date of a sale *)

(** C8: a valid line of a sale that is not yet in the result creates the
    sale with the [SALE_Date] of that line (["N/A"] when the line has no
    such key); a valid line of a sale that is there already adds its item
    and its line total to the sale and leaves its date as it was, whatever
    [SALE_Date] the line carries.  The other sales are untouched. *)
Theorem sale_date_is_fixed_at_creation
  (catalogue : dict float) (idx : nat) (record : pyval)
  (st st' : dict sale) (g g' : float) (w w' : world) (k : key) :
  no_zero_title catalogue ->
  valid_line catalogue record = true ->
  py_hash (field record "SALE_ID") = Ok k ->
  compute_sales_body catalogue idx record (st, g) w = (w', Ok (st', g')) ->
  exists item,
    lookup k st'
    = Some match lookup k st with
           | None =>
               {| date := sale_date record;
                  items := [item];
                  total := PyFloat.add PyFloat.zero (line_total item) |}
           | Some s =>
               {| date := date s;
                  items := items s ++ [item];
                  total := PyFloat.add (total s) (line_total item) |}
           end
    /\ forall k', k' <> k -> lookup k' st' = lookup k' st.
Proof.
  intros Hz Hv Hk Hb. rewrite compute_sales_body_examine in Hb.
  destruct (examine catalogue record) as [warning|e|k0 item] eqn:Hx.
  - rewrite (examine_skipped_invalid _ _ _ Hz Hx) in Hv. discriminate.
  - discriminate.
  - destruct (examine_accepted_valid _ _ _ _ Hx) as (_ & _ & Hk0).
    assert (k0 = k) by congruence. subst k0.
    inversion Hb; subst. exists item. split.
    + rewrite add_line_lookup, key_eqb_refl.
      destruct (lookup k st); reflexivity.
    + intros k' Hne. rewrite add_line_lookup, key_eqb_neq; auto.
Qed.

Lemma sale_date_is_fixed_at_creation_witness :
  no_zero_title Sample.catalogue
  /\ valid_line Sample.catalogue
       (Sample.dated_line (PInt 1) "02/12/23" (PStr "Ink") (PInt 2)) = true
  /\ exists item,
      lookup (KInt 1) Sample.sale_totals
      = Some {| date := PStr "01/12/23";
                items := [Sample.item "Pen" 4 Sample.price_1_50
                            (PyFloat.of_Z 6)] ++ [item];
                total := PyFloat.add (PyFloat.of_Z 6) (line_total item) |}.
Proof.
  assert (Hz : no_zero_title Sample.catalogue) by reflexivity.
  assert (Hv : valid_line Sample.catalogue
                 (Sample.dated_line (PInt 1) "02/12/23" (PStr "Ink")
                    (PInt 2)) = true) by reflexivity.
  split; [exact Hz | split; [exact Hv|]].
  destruct (sale_date_is_fixed_at_creation Sample.catalogue 3
              (Sample.dated_line (PInt 1) "02/12/23" (PStr "Ink") (PInt 2))
              [(KInt 1, {| date := PStr "01/12/23";
                           items := [Sample.item "Pen" 4 Sample.price_1_50
                                       (PyFloat.of_Z 6)];
                           total := PyFloat.of_Z 6 |});
               (KInt 2, Sample.sale_2)]
              Sample.sale_totals (PyFloat.of_decimal false 675 (-2))
              Sample.grand_total initial initial (KInt 1) Hz Hv eq_refl)
    as (item & H & _).
  - vm_compute. reflexivity.
  - exists item. exact H.
Defined.

(** Once a sale is in the result, the rest of the loop keeps its date. *)
Lemma sale_date_kept_by_the_loop (catalogue : dict float)
  (l : list pyval) (idx : nat) (st st' : dict sale) (g g' : float)
  (w w' : world) (k : key) (s : sale) :
  for_enumerate (compute_sales_body catalogue) idx l (st, g) w
  = (w', Ok (st', g')) ->
  lookup k st = Some s ->
  exists s', lookup k st' = Some s' /\ date s' = date s.
Proof.
  intros H Hk.
  pose (I := fun (_ : list pyval) (x : dict sale * float) =>
               exists s', lookup k (fst x) = Some s' /\ date s' = date s).
  assert (Hstep : forall idx done x st w w' st',
             I done st ->
             compute_sales_body catalogue idx x st w = (w', Ok st') ->
             I (done ++ [x]) st').
  { clear. subst I. intros idx _ record [st g] w0 w1 [st' g']
      (s' & Hs' & Hd) Hb.
    simpl in Hs' |- *. rewrite compute_sales_body_examine in Hb.
    destruct (examine catalogue record) as [warning|e|k0 item];
      inversion Hb; subst; [eauto|].
    rewrite add_line_lookup. destruct (key_eqb k0 k) eqn:E; [|eauto].
    apply key_eqb_eq in E. subst k0. rewrite Hs'.
    eexists. split; [reflexivity | exact Hd]. }
  assert (H0 : I [] (st, g)) by (exists s; auto).
  exact (for_enumerate_invariant _ I Hstep _ _ _ _ _ _ _ H0 H).
Qed.

(** ** The prices of the catalogue *)

(** One turn of the loop of [build_price_catalogue] leaves the catalogue
    as it was or stores a price that is not below zero. *)
Lemma build_price_catalogue_body_stores (idx : nat) (product : pyval)
  (catalogue catalogue' : dict float) (w w' : world) :
  build_price_catalogue_body idx product catalogue w
  = (w', Ok catalogue') ->
  catalogue' = catalogue
  \/ exists k price,
       py_hash (field product "title") = Ok k
       /\ truthy (field product "title") = true
       /\ PyFloat.ltb price PyFloat.zero = false
       /\ catalogue' = setitem k price catalogue.
Proof.
  destruct product as [| | | | |l|d]; try discriminate.
  unfold build_price_catalogue_body, field, get, bind, lift, ret, raise,
    store.
  cbv beta iota.
  destruct (truthy _) eqn:Ht; cbn [negb]; cbv beta iota;
    [|intros H; inversion H; auto].
  destruct (is_None _); [intros H; inversion H; auto|].
  destruct (py_float _) as [price|[]]; try discriminate;
    try solve [intros H; inversion H; auto].
  destruct (PyFloat.ltb price PyFloat.zero) eqn:Hlt;
    [intros H; inversion H; auto|].
  destruct (py_hash _) as [k|e]; [|discriminate].
  intros H. inversion H; subst. right. exists k, price. auto.
Qed.

Lemma not_below_zero (p : float) :
  PyFloat.ltb p PyFloat.zero = false ->
  PyFloat.geb p PyFloat.zero = true \/ p = PyFloat.nan.
Proof.
  destruct p as [s|[]| |[] m e]; simpl; auto; discriminate.
Qed.

(** C3, as stated, fails: the price ["nan"] parses to NaN, which is not
    below zero, so it is stored, and NaN is not [>= 0] either. *)
Lemma nan_price_is_stored : ~ catalogue_prices_nonnegative.
Proof.
  intros H.
  specialize (H nan_priced initial initial [(KStr "Ink", PyFloat.nan)]
                (KStr "Ink") PyFloat.nan eq_refl eq_refl).
  discriminate H.
Qed.

(** C3, amended: no price of the catalogue that [build_price_catalogue]
    returns is below zero (each is [>= 0] or NaN), and a record whose price
    parses to a number below zero is skipped with a warning. *)
Theorem catalogue_prices_not_negative :
  (forall products w w' catalogue k p,
      build_price_catalogue products w = (w', Ok catalogue) ->
      lookup k catalogue = Some p ->
      PyFloat.ltb p PyFloat.zero = false
      /\ (PyFloat.geb p PyFloat.zero = true \/ p = PyFloat.nan))
  /\ (forall idx d catalogue w price,
         truthy (field (PDict d) "title") = true ->
         py_float (field (PDict d) "price") = Ok price ->
         PyFloat.ltb price PyFloat.zero = true ->
         build_price_catalogue_body idx (PDict d) catalogue w
         = (emit [WarnNegativePrice (field (PDict d) "title")] w,
            Ok catalogue)).
Proof.
  split.
  - intros products w w' catalogue k p H Hk.
    assert (Hlt : PyFloat.ltb p PyFloat.zero = false);
      [|split; [exact Hlt | now apply not_below_zero]].
    revert k p Hk. unfold build_price_catalogue in H.
    pose (I := fun (_ : list pyval) (c : dict float) =>
                 forall k p, lookup k c = Some p ->
                             PyFloat.ltb p PyFloat.zero = false).
    assert (Hstep : forall idx done x c w w' c',
               I done c ->
               build_price_catalogue_body idx x c w = (w', Ok c') ->
               I (done ++ [x]) c').
    { clear. subst I. cbv beta. intros idx _ x c w w' c' HI Hb k p Hk.
      apply build_price_catalogue_body_stores in Hb.
      destruct Hb as [E | (k0 & price & _ & _ & Hlt & E)];
        rewrite E in Hk; [eauto|].
      apply lookup_setitem_inv in Hk.
      destruct Hk as [[_ E'] | Hk]; [congruence | eauto]. }
    assert (H0 : I [] []) by (intros ? ? ?; discriminate).
    exact (for_enumerate_invariant _ I Hstep _ _ _ _ _ _ _ H0 H).
  - intros idx d catalogue w price Ht Hp Hlt.
    unfold build_price_catalogue_body, get, bind, lift, ret, print.
    unfold field in Ht, Hp. cbv beta iota.
    rewrite Ht. cbn [negb]. cbv beta iota.
    destruct (is_None _) eqn:Hn.
    + destruct (match assoc "price" d with Some v => v | None => PNone end);
        discriminate.
    + rewrite Hp, Hlt. reflexivity.
Qed.

Lemma catalogue_prices_not_negative_witness :
  build_price_catalogue nan_priced initial
  = (initial, Ok [(KStr "Ink", PyFloat.nan)])
  /\ PyFloat.ltb PyFloat.nan PyFloat.zero = false
  /\ (PyFloat.geb PyFloat.nan PyFloat.zero = true
      \/ PyFloat.nan = PyFloat.nan).
Proof.
  assert (H : build_price_catalogue nan_priced initial
              = (initial, Ok [(KStr "Ink", PyFloat.nan)])) by reflexivity.
  split; [exact H|].
  exact (proj1 catalogue_prices_not_negative nan_priced initial initial
           [(KStr "Ink", PyFloat.nan)] (KStr "Ink") PyFloat.nan H eq_refl).
Defined.

(** A float that hashes like the integer 0 is a zero. *)
Lemma integer_float_zero (f : float) :
  PyFloat.is_integer f = true ->
  PyFloat.trunc f = Some 0 ->
  truthy (PFloat f) = false.
Proof.
  destruct f as [s|s| |s m e]; try discriminate; [reflexivity|].
  unfold PyFloat.is_integer, PyFloat.trunc. intros Hi Hz. exfalso.
  assert (Ha : match e with
               | Zneg k => Z.shiftr (Zpos m) (Zpos k)
               | _ => Z.shiftl (Zpos m) e
               end = 0) by (inversion Hz; destruct s; lia).
  clear Hz. destruct e as [|e|k].
  - discriminate Ha.
  - rewrite Z.shiftl_mul_pow2 in Ha by lia.
    assert (0 < 2 ^ Zpos e) by (apply Z.pow_pos_nonneg; lia). nia.
  - rewrite Z.eqb_eq, Z.land_ones in Hi by lia.
    rewrite Z.shiftr_div_pow2 in Ha by lia.
    assert (0 < 2 ^ Zpos k) by (apply Z.pow_pos_nonneg; lia).
    pose proof (Z.div_mod (Zpos m) (2 ^ Zpos k) ltac:(lia)). nia.
Qed.

(** The titles of the catalogue are truthy, so none is a zero. *)
Lemma build_price_catalogue_no_zero_title (products : list pyval)
  (w w' : world) (catalogue : dict float) :
  build_price_catalogue products w = (w', Ok catalogue) ->
  no_zero_title catalogue.
Proof.
  intros H. unfold build_price_catalogue in H.
  pose (I := fun (_ : list pyval) (c : dict float) => no_zero_title c).
  assert (Hstep : forall idx done x c w w' c',
             I done c ->
             build_price_catalogue_body idx x c w = (w', Ok c') ->
             I (done ++ [x]) c').
  { clear. subst I. unfold no_zero_title. cbv beta.
    intros idx _ x c w w' c' HI Hb.
    apply build_price_catalogue_body_stores in Hb.
    destruct Hb as [E | (k0 & price & Hk & Ht & _ & E)];
      rewrite E; [auto|].
    rewrite lookup_setitem_other; [exact HI|].
    intros ->. destruct (field x "title") as [|b|z|f| | |];
      simpl in Hk, Ht; try discriminate.
    - destruct b; discriminate.
    - inversion Hk; subst. discriminate.
    - destruct (PyFloat.is_integer f) eqn:Hi; [|discriminate].
      destruct (PyFloat.trunc f) as [z|] eqn:Hz; [|discriminate].
      inversion Hk; subst.
      pose proof (integer_float_zero f Hi Hz) as Hf. simpl in Hf.
      congruence. }
  assert (H0 : I [] []) by reflexivity.
  exact (for_enumerate_invariant _ I Hstep _ _ _ _ _ _ _ H0 H).
Qed.

Lemma string_titles_no_zero_title (catalogue : dict float) :
  string_titles catalogue -> no_zero_title catalogue.
Proof.
  unfold string_titles, no_zero_title, keys.
  induction catalogue as [|[k v] c IH]; intros H; [reflexivity|].
  simpl. destruct (H k (or_introl eq_refl)) as [s ->]. simpl.
  apply IH. intros k' Hk'. apply H. now right.
Qed.

(** The two stages together, as [main] runs them: whatever the product
    list, the grand total is the sum over the valid lines. *)
Lemma grand_total_of_the_pipeline (products sales_records : list pyval)
  (w w1 w2 : world) (catalogue : dict float) (sale_totals : dict sale)
  (grand_total : float) :
  build_price_catalogue products w = (w1, Ok catalogue) ->
  compute_sales catalogue sales_records w1
  = (w2, Ok (sale_totals, grand_total)) ->
  grand_total = valid_lines_total catalogue sales_records.
Proof.
  intros Hb H. apply build_price_catalogue_no_zero_title in Hb.
  unfold compute_sales in H.
  pose (I := fun (done : list pyval) (acc : dict sale * float) =>
               snd acc = valid_lines_total catalogue done).
  assert (Hstep : forall idx done x acc w w' acc',
             I done acc ->
             compute_sales_body catalogue idx x acc w = (w', Ok acc') ->
             I (done ++ [x]) acc')
    by (intros; eapply grand_total_step; eauto).
  assert (H0 : I [] ([], PyFloat.zero)) by reflexivity.
  exact (for_enumerate_invariant _ I Hstep _ _ _ _ _ _ _ H0 H).
Qed.

(** ** The entry point *)

Lemma prints_only_parse_args (argv : list string) :
  prints_only (parse_args argv).
Proof.
  unfold parse_args, sys_exit.
  repeat prints_only_step.
Qed.

Lemma prints_only_files {A : Type} (m : M A) (w : world) :
  prints_only m -> files (fst (m w)) = files w.
Proof. intros (log & r & H). now rewrite H. Qed.

(** [parse_args] never returns [detail = True]: [--total] is a
    [store_true] option whose default is [True], so [args.total] is true
    whether the flag is given or not, and [args.detail] is reset. *)
Lemma parse_args_never_detail (argv : list string) (w w' : world)
  (args : Args.Namespace) :
  parse_args argv w = (w', Ok args) ->
  Args.total args = true /\ Args.detail args = false.
Proof.
  unfold parse_args, sys_exit, bind, ret, raise, print.
  destruct (existsb _ _); [discriminate|].
  destruct (Argparse.consume _ _) as [s| |]; try discriminate.
  destruct (Argparse.positionals s) as [|c [|r [|x l]]]; try discriminate.
  destruct (Argparse.unrecognized s); [discriminate|].
  unfold Argparse.store_true. cbn [Args.total].
  destruct (Argparse.seen_total s); cbv iota;
    intros H; inversion H; subst; auto.
Qed.

(** C5: when the catalogue file holds an array from which
    [build_price_catalogue] keeps no product (the empty array included),
    the process exits with status 1 and writes no file. *)
Theorem empty_catalogue_is_fatal
  (E : env) (argv : list string) (w0 : world) (args : Args.Namespace)
  (products : list pyval) :
  parse_args argv initial = (w0, Ok args) ->
  read_json E (Args.catalogue args) = Loaded (PList products) ->
  snd (build_price_catalogue products initial) = Ok [] ->
  snd (run E argv) = 1 /\ files (fst (run E argv)) = [].
Proof.
  intros Hp Hr Hb.
  assert (Hw0 : files w0 = []).
  { pose proof (prints_only_files _ initial (prints_only_parse_args argv))
      as H. now rewrite Hp in H. }
  destruct (prints_only_build_price_catalogue products) as (lb & rb & Hbuild).
  rewrite Hbuild in Hb. simpl in Hb. subst rb.
  unfold run. destruct (main E argv initial) as [w1 r] eqn:Hm.
  cbn [fst snd]. unfold main, bind in Hm. rewrite Hp in Hm.
  unfold load_json at 1 in Hm. rewrite Hr in Hm. unfold ret at 1 in Hm.
  unfold load_json, sys_exit, bind, raise, print, ret in Hm.
  destruct (read_json E (Args.sales args)) as [data| | | | | |];
    [destruct data|..]; try rewrite Hbuild in Hm; cbn in Hm;
    inversion Hm; subst; cbn; auto.
Qed.

Lemma empty_catalogue_is_fatal_witness :
  parse_args EmptyCatalogue.argv initial
  = (initial, Ok EmptyCatalogue.args)
  /\ read_json EmptyCatalogue.E (Args.catalogue EmptyCatalogue.args)
     = Loaded (PList [])
  /\ snd (build_price_catalogue [] initial) = Ok []
  /\ snd (run EmptyCatalogue.E EmptyCatalogue.argv) = 1
  /\ files (fst (run EmptyCatalogue.E EmptyCatalogue.argv)) = [].
Proof.
  assert (H1 : parse_args EmptyCatalogue.argv initial
               = (initial, Ok EmptyCatalogue.args)) by reflexivity.
  assert (H2 : read_json EmptyCatalogue.E
                 (Args.catalogue EmptyCatalogue.args)
               = Loaded (PList [])) by reflexivity.
  assert (H3 : snd (build_price_catalogue [] initial) = Ok [])
    by reflexivity.
  repeat (split; [assumption|]).
  exact (empty_catalogue_is_fatal _ _ _ _ _ H1 H2 H3).
Defined.

(** A catalogue file whose products are all invalid is fatal as well. *)
Example all_products_invalid_is_fatal :
  snd (build_price_catalogue
         [ PDict [("title", PStr "Pen"); ("price", PInt (-1))];
           PDict [("price", PInt 2)] ] initial) = Ok [].
Proof. reflexivity. Qed.

(** ** The [--detail] flag *)

(** C1 fails on the code: with [--detail] on the command line
    [parse_args] returns [detail = False], and the report that [main]
    prints and writes is the summary, without any sale. *)
Theorem detail_flag_is_overridden :
  parse_args SampleRun.argv initial
  = (initial,
     Ok {| Args.catalogue := "priceCatalogue.json";
           Args.sales := "salesRecord.json";
           Args.total := true;
           Args.detail := false |})
  /\ run SampleRun.E SampleRun.argv
     = ({| stdout := Sample.warnings
                     ++ [Results SampleRun.summary; ResultsSaved];
           files := [(results_file, SampleRun.summary)] |}, 0).
Proof. split; vm_compute; reflexivity. Qed.

(** What [format_results] gives when it is asked for the details: the
    sales in ascending order of their ids, each with its items. *)
Example detailed_report_of_the_sample :
  format_results Sample.sale_totals Sample.grand_total PyFloat.zero true
  = Ok ([LTitle; LBlank]
        ++ format_sale (KInt 1) Sample.sale_1
        ++ format_sale (KInt 2) Sample.sale_2
        ++ [LSeparator; LGrandTotal Sample.grand_total; LSeparator;
            LElapsed PyFloat.zero; LSeparator]).
Proof. reflexivity. Qed.

(** * Further properties *)

(** ** Loops *)

(** A loop over two lists in a row: the second part starts in the state
    and with the index that the first part leaves; an exception in the
    first part ends the loop. *)
Lemma for_enumerate_app {A St : Type} (body : nat -> A -> St -> M St)
  (l1 l2 : list A) (idx : nat) (s : St) (w : world) :
  for_enumerate body idx (l1 ++ l2) s w =
  match for_enumerate body idx l1 s w with
  | (w1, Ok s1) => for_enumerate body (idx + List.length l1) l2 s1 w1
  | (w1, Raise e) => (w1, Raise e)
  end.
Proof.
  revert idx s w. induction l1 as [|x l1 IH]; intros idx s w.
  - simpl. unfold ret. now rewrite Nat.add_0_r.
  - cbn [app for_enumerate List.length]. unfold bind.
    destruct (body idx x s w) as [w0 [s0|e]]; [|reflexivity].
    rewrite IH. now rewrite Nat.add_succ_r.
Qed.

(** ** The catalogue builder *)

(** The loop body of [build_price_catalogue] does what [examine_product]
    says. *)
Lemma build_price_catalogue_body_examine (idx : nat) (product : pyval)
  (catalogue : dict float) (w : world) :
  build_price_catalogue_body idx product catalogue w =
  match examine_product product with
  | Rejected warning => (emit [warning idx] w, Ok catalogue)
  | Failed e => (w, Raise e)
  | Stored k price => (w, Ok (setitem k price catalogue))
  end.
Proof.
  destruct product as [| | | | |l|d]; try reflexivity.
  unfold build_price_catalogue_body, examine_product, field, get, bind,
    lift, ret, raise, store.
  cbv beta iota.
  destruct (truthy _); cbn [negb]; cbv beta iota; [|reflexivity].
  destruct (is_None _); [reflexivity|].
  destruct (py_float _) as [p|[]]; try reflexivity.
  destruct (PyFloat.ltb p PyFloat.zero); [reflexivity|].
  destruct (py_hash _); reflexivity.
Qed.

Lemma last_price_snoc (k : key) (done : list pyval) (product : pyval) :
  last_price k (done ++ [product]) =
  match examine_product product with
  | Stored k' p => if key_eqb k k' then Some p else last_price k done
  | _ => last_price k done
  end.
Proof.
  induction done as [|x done IH]; simpl.
  - destruct (examine_product product) as [| |k' p]; auto.
  - rewrite IH. destruct (examine_product product) as [| |k' p]; auto.
    destruct (key_eqb k k'); auto.
Qed.

(** X1: the catalogue that [build_price_catalogue] returns holds, for
    every title, the price of the last product that passes the checks
    under that title, and nothing for a title no product passes under:
    a later duplicate overrides an earlier one. *)
Theorem catalogue_holds_last_price
  (products : list pyval) (w w' : world) (catalogue : dict float)
  (k : key) :
  build_price_catalogue products w = (w', Ok catalogue) ->
  lookup k catalogue = last_price k products.
Proof.
  intros H. unfold build_price_catalogue in H.
  pose (I := fun (done : list pyval) (c : dict float) =>
               forall k, lookup k c = last_price k done).
  assert (Hstep : forall idx done x c w w' c',
             I done c ->
             build_price_catalogue_body idx x c w = (w', Ok c') ->
             I (done ++ [x]) c').
  { clear. subst I. cbv beta. intros idx done x c w w' c' HI Hb k.
    rewrite build_price_catalogue_body_examine in Hb.
    rewrite last_price_snoc.
    destruct (examine_product x) as [warning|e|k' p];
      inversion Hb; subst; auto.
    destruct (key_eqb k k') eqn:E.
    - apply key_eqb_eq in E. subst k'. apply lookup_setitem_same.
    - rewrite lookup_setitem_other; auto.
      intros ->. now rewrite key_eqb_refl in E. }
  assert (H0 : I [] []) by (intros ?; reflexivity).
  exact (for_enumerate_invariant _ I Hstep _ _ _ _ _ _ _ H0 H k).
Qed.

Lemma catalogue_holds_last_price_witness :
  build_price_catalogue Products.with_duplicates initial
  = (emit Products.warnings initial, Ok Products.catalogue)
  /\ lookup (KStr "Pen") Products.catalogue = Some Sample.price_0_25
  /\ last_price (KStr "Pen") Products.with_duplicates
     = Some Sample.price_0_25.
Proof.
  assert (H : build_price_catalogue Products.with_duplicates initial
              = (emit Products.warnings initial, Ok Products.catalogue))
    by (vm_compute; reflexivity).
  split; [exact H | split; [reflexivity|]].
  rewrite <- (catalogue_holds_last_price _ _ _ _ (KStr "Pen") H).
  reflexivity.
Defined.

(** The output of a loop whose turns print the warning of a judge, or
    nothing. *)
Lemma for_enumerate_warnings {A St : Type}
  (body : nat -> A -> St -> M St) (judge : A -> option (nat -> output)) :
  (forall idx x s w w' s',
      body idx x s w = (w', Ok s') ->
      w' = emit match judge x with
                | Some warning => [warning idx]
                | None => []
                end w) ->
  forall l idx s w w' s',
    for_enumerate body idx l s w = (w', Ok s') ->
    w' = emit (warnings_from judge idx l) w.
Proof.
  intros Hbody l. induction l as [|x l IH]; intros idx s w w' s' H.
  - simpl in H. unfold ret in H. inversion H; subst.
    simpl. now rewrite emit_nil.
  - simpl in H. unfold bind in H.
    destruct (body idx x s w) as [w1 [s1|e]] eqn:Hb; [|discriminate].
    apply Hbody in Hb. apply IH in H. subst w1 w'. simpl.
    rewrite emit_emit. destruct (judge x); reflexivity.
Qed.

Lemma warnings_from_length {A : Type} (judge : A -> option (nat -> output))
  (idx : nat) (l : list A) :
  List.length (warnings_from judge idx l)
  = List.length (filter (fun x => match judge x with
                                  | Some _ => true
                                  | None => false
                                  end) l).
Proof.
  revert idx. induction l as [|x l IH]; intros idx; simpl; [reflexivity|].
  destruct (judge x); simpl; now rewrite IH.
Qed.




Lemma truthy_py_hash (v : pyval) (k : key) :
  truthy v = true -> py_hash v = Ok k -> truthy_key k = true.
Proof.
  destruct v as [|b|z|f|s|l|d]; simpl; try discriminate.
  - intros -> H. inversion H. reflexivity.
  - intros Hz H. inversion H; subst. exact Hz.
  - intros Hf. destruct (PyFloat.is_integer f) eqn:Hi.
    + destruct (PyFloat.trunc f) as [z|] eqn:Hz;
        intros H; inversion H; subst; [|reflexivity].
      simpl. destruct (Z.eqb_spec z 0) as [->|]; [|reflexivity].
      pose proof (integer_float_zero f Hi Hz) as H0. simpl in H0.
      congruence.
    + intros H. inversion H. reflexivity.
  - intros Hs H. inversion H; subst. exact Hs.
Qed.

(** X3: every title of the catalogue that [build_price_catalogue]
    returns is truthy: no product is stored under an empty string,
    [None], or a number equal to zero. *)
Theorem catalogue_titles_are_truthy
  (products : list pyval) (w w' : world) (catalogue : dict float)
  (k : key) (p : float) :
  build_price_catalogue products w = (w', Ok catalogue) ->
  lookup k catalogue = Some p ->
  truthy_key k = true.
Proof.
  intros H. unfold build_price_catalogue in H.
  pose (I := fun (_ : list pyval) (c : dict float) =>
               forall k p, lookup k c = Some p -> truthy_key k = true).
  assert (Hstep : forall idx done x c w w' c',
             I done c ->
             build_price_catalogue_body idx x c w = (w', Ok c') ->
             I (done ++ [x]) c').
  { clear. subst I. cbv beta. intros idx done x c w w' c' HI Hb k p Hk.
    apply build_price_catalogue_body_stores in Hb.
    destruct Hb as [E | (k0 & price & Hh & Ht & _ & E)];
      rewrite E in Hk; [eauto|].
    apply lookup_setitem_inv in Hk. destruct Hk as [[-> _] | Hk]; [|eauto].
    exact (truthy_py_hash _ _ Ht Hh). }
  assert (H0 : I [] []) by (intros ? ? ?; discriminate).
  exact (for_enumerate_invariant _ I Hstep _ _ _ _ _ _ _ H0 H k p).
Qed.

Lemma catalogue_titles_are_truthy_witness :
  build_price_catalogue Products.with_duplicates initial
  = (emit Products.warnings initial, Ok Products.catalogue)
  /\ lookup (KStr "Pen") Products.catalogue = Some Sample.price_0_25
  /\ truthy_key (KStr "Pen") = true.
Proof.
  assert (H : build_price_catalogue Products.with_duplicates initial
              = (emit Products.warnings initial, Ok Products.catalogue))
    by (vm_compute; reflexivity).
  assert (Hk : lookup (KStr "Pen") Products.catalogue
               = Some Sample.price_0_25) by reflexivity.
  split; [exact H | split; [exact Hk|]].
  exact (catalogue_titles_are_truthy _ _ _ _ _ _ H Hk).
Defined.

(** The float of an integer below [2^53] in magnitude is a zero or a
    finite number with the sign of the integer. *)
Lemma of_Z_sign (z : Z) :
  Z.abs z < 2 ^ 53 ->
  match z with
  | Z0 => PyFloat.of_Z z = S754_zero false
  | Zpos _ => exists m e, PyFloat.of_Z z = S754_finite false m e
  | Zneg _ => exists m e, PyFloat.of_Z z = S754_finite true m e
  end.
Proof.
  intros Hz. unfold PyFloat.of_Z, binary_normalize.
  destruct z as [|m|m]; [reflexivity| |];
    (assert (Hd : Zpos (digits2_pos m) <= 53)
       by (apply digits2_pos_le; simpl in Hz; lia));
    unfold binary_round, shl_align, fexp, emin, PyFloat.prec, PyFloat.emax;
    (replace (Z.max (Zpos (digits2_pos m) + 0 - 53) (3 - 1024 - 53))
       with (Zpos (digits2_pos m) - 53) by lia);
    (destruct (Zpos (digits2_pos m) - 53 - 0) as [|p|p] eqn:Hp; [| lia |]).
  - replace (Zpos (digits2_pos m) - 53) with 0 by lia.
    rewrite binary_round_aux_canonical; [eauto | | |];
      unfold PyFloat.prec, PyFloat.emax; lia.
  - rewrite binary_round_aux_canonical; [eauto | | |];
      unfold PyFloat.prec, PyFloat.emax;
      rewrite ?digits2_pos_iter_xO; lia.
  - replace (Zpos (digits2_pos m) - 53) with 0 by lia.
    rewrite binary_round_aux_canonical; [eauto | | |];
      unfold PyFloat.prec, PyFloat.emax; lia.
  - rewrite binary_round_aux_canonical; [eauto | | |];
      unfold PyFloat.prec, PyFloat.emax;
      rewrite ?digits2_pos_iter_xO; lia.
Qed.

(** X4: on a product whose title is a non-empty string and whose price
    is a JSON integer below [2^53] in magnitude, one turn of the loop of
    [build_price_catalogue] tests the sign exactly: a price below zero is
    rejected with the warning of the negative price, and a price of zero
    or more is stored under the title, as the float of that integer,
    without a warning. *)
Theorem integer_price_kept_iff_not_negative
  (idx : nat) (d : list (string * pyval)) (catalogue : dict float)
  (w : world) (c : ascii) (s : string) (z : Z) :
  assoc "title" d = Some (PStr (String c s)) ->
  assoc "price" d = Some (PInt z) ->
  Z.abs z < 2 ^ 53 ->
  build_price_catalogue_body idx (PDict d) catalogue w =
  if Z.ltb z 0
  then (emit [WarnNegativePrice (PStr (String c s))] w, Ok catalogue)
  else (w, Ok (setitem (KStr (String c s)) (PyFloat.of_Z z) catalogue)).
Proof.
  intros Ht Hp Hz. rewrite build_price_catalogue_body_examine.
  unfold examine_product.
  rewrite (field_assoc _ _ _ Ht), (field_assoc _ _ _ Hp).
  cbn [truthy negb is_None py_float py_hash]. unfold float_of_int.
  rewrite (of_Z_finite z Hz).
  pose proof (of_Z_sign z Hz) as Hs.
  destruct z as [|m|m]; cbn [Z.ltb Z.compare].
  - rewrite Hs. reflexivity.
  - destruct Hs as (m' & e' & ->). reflexivity.
  - destruct Hs as (m' & e' & ->). reflexivity.
Qed.

Lemma integer_price_kept_iff_not_negative_witness :
  assoc "title" [("title", PStr "Ink"); ("price", PInt (-3))]
  = Some (PStr "Ink")
  /\ assoc "price" [("title", PStr "Ink"); ("price", PInt (-3))]
     = Some (PInt (-3))
  /\ Z.abs (-3) < 2 ^ 53
  /\ build_price_catalogue_body 1
       (PDict [("title", PStr "Ink"); ("price", PInt (-3))]) [] initial
     = (emit [WarnNegativePrice (PStr "Ink")] initial, Ok []).
Proof.
  assert (Ht : assoc "title" [("title", PStr "Ink"); ("price", PInt (-3))]
               = Some (PStr "Ink")) by reflexivity.
  assert (Hp : assoc "price" [("title", PStr "Ink"); ("price", PInt (-3))]
               = Some (PInt (-3))) by reflexivity.
  assert (Hz : Z.abs (-3) < 2 ^ 53) by reflexivity.
  repeat (split; [assumption|]).
  exact (integer_price_kept_iff_not_negative 1 _ [] initial _ _ _ Ht Hp Hz).
Defined.

(** A loop stops at the first item on which its body raises. *)
Lemma for_enumerate_raises {A St : Type} (body : nat -> A -> St -> M St)
  (pre post : list A) (x : A) (idx : nat) (s s1 : St) (w w1 : world)
  (e : exn) :
  for_enumerate body idx pre s w = (w1, Ok s1) ->
  body (idx + List.length pre)%nat x s1 w1 = (w1, Raise e) ->
  for_enumerate body idx (pre ++ x :: post) s w = (w1, Raise e).
Proof.
  intros Hpre Hx. rewrite for_enumerate_app, Hpre.
  cbn [for_enumerate]. unfold bind. now rewrite Hx.
Qed.

(** X5: [build_price_catalogue] does not catch what a product raises.
    After products that it got through, a product that is no JSON object
    raises [AttributeError], an integer price beyond the range of a float
    raises [OverflowError], and a title that is a non-empty list or object
    on a product with a good price raises [TypeError]; the products after
    it are not looked at, and what was printed before stays. *)
Theorem build_price_catalogue_raises
  (pre post : list pyval) (x : pyval) (w w1 : world)
  (catalogue : dict float) :
  build_price_catalogue pre w = (w1, Ok catalogue) ->
  (is_object x = false ->
   build_price_catalogue (pre ++ x :: post) w = (w1, Raise AttributeError))
  /\ (forall z,
         is_object x = true ->
         truthy (field x "title") = true ->
         field x "price" = PInt z ->
         PyFloat.is_finite (PyFloat.of_Z z) = false ->
         build_price_catalogue (pre ++ x :: post) w
         = (w1, Raise OverflowError))
  /\ (forall p,
         is_object x = true ->
         truthy (field x "title") = true ->
         hashable (field x "title") = false ->
         py_float (field x "price") = Ok p ->
         PyFloat.ltb p PyFloat.zero = false ->
         build_price_catalogue (pre ++ x :: post) w
         = (w1, Raise TypeError)).
Proof.
  intros Hpre. unfold build_price_catalogue in *.
  assert (Hfail : forall e, examine_product x = Failed e ->
            for_enumerate build_price_catalogue_body 0 (pre ++ x :: post)
              [] w = (w1, Raise e)).
  { intros e He. apply (for_enumerate_raises _ _ _ _ _ _ _ _ _ _ Hpre).
    now rewrite build_price_catalogue_body_examine, He. }
  split; [|split].
  - intros Hx. apply Hfail. destruct x; try reflexivity. discriminate.
  - intros z Hx Ht Hp Hz. apply Hfail.
    destruct x; try discriminate. unfold examine_product.
    rewrite Ht, Hp. cbn [negb is_None py_float]. unfold float_of_int.
    now rewrite Hz.
  - intros p Hx Ht Hh Hp Hlt. apply Hfail.
    destruct x; try discriminate. unfold examine_product.
    rewrite Ht, Hp, Hlt. cbn [negb]. cbv iota.
    destruct (is_None _) eqn:Hn.
    { destruct (field _ "price"); discriminate. }
    destruct (field _ "title"); simpl in Hh; try discriminate; reflexivity.
Qed.

Lemma build_price_catalogue_raises_witness :
  build_price_catalogue Products.with_duplicates initial
  = (emit Products.warnings initial, Ok Products.catalogue)
  /\ build_price_catalogue
       (Products.with_duplicates
        ++ Products.priced (PStr "Big") (PInt Products.huge)
        :: [Products.priced (PStr "Nib") (PInt 1)]) initial
     = (emit Products.warnings initial, Raise OverflowError).
Proof.
  assert (H : build_price_catalogue Products.with_duplicates initial
              = (emit Products.warnings initial, Ok Products.catalogue))
    by (vm_compute; reflexivity).
  split; [exact H|].
  destruct (build_price_catalogue_raises Products.with_duplicates
              [Products.priced (PStr "Nib") (PInt 1)]
              (Products.priced (PStr "Big") (PInt Products.huge))
              _ _ _ H) as (_ & Ho & _).
  apply (Ho Products.huge); vm_compute; reflexivity.
Defined.

(** ** The sales aggregator *)

Lemma key_eqb_sym (a b : key) : key_eqb a b = key_eqb b a.
Proof.
  destruct (key_eqb a b) eqn:E.
  - apply key_eqb_eq in E. subst. symmetry. apply key_eqb_refl.
  - destruct (key_eqb b a) eqn:E'; [|reflexivity].
    apply key_eqb_eq in E'. subst. now rewrite key_eqb_refl in E.
Qed.

(** The item of a line that is taken, read off the record. *)
Lemma examine_accepted_item (catalogue : dict float) (record : pyval)
  (k : key) (item : line_item) :
  examine catalogue record = Accepted k item ->
  item = item_of catalogue record /\ item_consistent catalogue item.
Proof.
  unfold examine, item_of, item_consistent, line_value, price_of.
  destruct record as [| | | | |l|d]; try discriminate.
  destruct (is_None _); [discriminate|].
  destruct (truthy _); simpl negb; cbv iota; [|discriminate].
  destruct (py_int _) as [q|[]]; try discriminate.
  destruct (py_hash (field (PDict d) "Product")) as [kp|e] eqn:Hkp;
    [|discriminate].
  destruct (lookup kp catalogue) as [price|] eqn:Hl; [|discriminate].
  destruct (float_mul_int price q) as [lt|e] eqn:Hm; [|discriminate].
  destruct (py_hash (field (PDict d) "SALE_ID")) as [k'|e]; [|discriminate].
  intros H. inversion H; subst. apply float_mul_int_value in Hm. subst lt.
  split; [reflexivity|]. exists kp. simpl. auto.
Qed.

Lemma lines_of_snoc (catalogue : dict float) (k : key)
  (done : list pyval) (record : pyval) :
  lines_of catalogue k (done ++ [record]) =
  if valid_line catalogue record && belongs k record
  then lines_of catalogue k done ++ [record]
  else lines_of catalogue k done.
Proof.
  unfold lines_of. rewrite filter_app. simpl.
  destruct (valid_line catalogue record && belongs k record);
    [reflexivity | apply app_nil_r].
Qed.

(** X6: the sales that [compute_sales] returns are the valid lines
    grouped by [SALE_ID]: a sale is there exactly when some valid line
    has its id, its items are those lines in input order, and its date is
    the date of the first of them. *)
Theorem sales_are_valid_lines_grouped
  (catalogue : dict float) (sales_records : list pyval) (w w' : world)
  (sale_totals : dict sale) (grand_total : float) (k : key) :
  no_zero_title catalogue ->
  compute_sales catalogue sales_records w
  = (w', Ok (sale_totals, grand_total)) ->
  match lookup k sale_totals with
  | Some s =>
      lines_of catalogue k sales_records <> []
      /\ items s
         = map (item_of catalogue) (lines_of catalogue k sales_records)
      /\ date s
         = sale_date (hd PNone (lines_of catalogue k sales_records))
  | None => lines_of catalogue k sales_records = []
  end.
Proof.
  intros Hz H. unfold compute_sales in H.
  pose (I := fun (done : list pyval) (acc : dict sale * float) =>
               forall k,
                 match lookup k (fst acc) with
                 | Some s =>
                     lines_of catalogue k done <> []
                     /\ items s
                        = map (item_of catalogue) (lines_of catalogue k done)
                     /\ date s
                        = sale_date (hd PNone (lines_of catalogue k done))
                 | None => lines_of catalogue k done = []
                 end).
  assert (Hstep : forall idx done x acc w w' acc',
             I done acc ->
             compute_sales_body catalogue idx x acc w = (w', Ok acc') ->
             I (done ++ [x]) acc').
  { clear H k. subst I. cbv beta.
    intros idx done x [st g] w0 w1 [st' g'] HI Hb k.
    specialize (HI k). simpl in HI |- *.
    rewrite compute_sales_body_examine in Hb.
    rewrite lines_of_snoc.
    destruct (examine catalogue x) as [warning|e|k0 item] eqn:Hx.
    - inversion Hb; subst.
      now rewrite (examine_skipped_invalid _ _ _ Hz Hx).
    - discriminate.
    - inversion Hb; subst.
      destruct (examine_accepted_valid _ _ _ _ Hx) as (Hv & _ & Hk0).
      destruct (examine_accepted_item _ _ _ _ Hx) as (Hitem & _).
      rewrite Hv. unfold belongs. rewrite Hk0. cbn [andb].
      rewrite add_line_lookup, (key_eqb_sym k0 k).
      destruct (key_eqb k k0) eqn:E; [|exact HI].
      apply key_eqb_eq in E. subst k0.
      destruct (lookup k st) as [s|].
      + destruct HI as (Hne & Hi & Hd). simpl. split; [|split].
        * intros Habs. now apply app_eq_nil in Habs.
        * rewrite Hi, map_app, Hitem. reflexivity.
        * rewrite Hd. destruct (lines_of catalogue k done);
            [congruence | reflexivity].
      + rewrite HI. simpl. split; [discriminate|].
        split; [now rewrite Hitem | reflexivity]. }
  assert (H0 : I [] ([], PyFloat.zero)) by (intros ?; reflexivity).
  exact (for_enumerate_invariant _ I Hstep _ _ _ _ _ _ _ H0 H k).
Qed.

Lemma sales_are_valid_lines_grouped_witness :
  no_zero_title Sample.catalogue
  /\ compute_sales Sample.catalogue Sample.sales_records initial
     = (emit Sample.warnings initial,
        Ok (Sample.sale_totals, Sample.grand_total))
  /\ items Sample.sale_1
     = map (item_of Sample.catalogue)
         (lines_of Sample.catalogue (KInt 1) Sample.sales_records)
  /\ lines_of Sample.catalogue (KInt 3) Sample.sales_records = [].
Proof.
  assert (Hz : no_zero_title Sample.catalogue) by reflexivity.
  assert (H : compute_sales Sample.catalogue Sample.sales_records initial
              = (emit Sample.warnings initial,
                 Ok (Sample.sale_totals, Sample.grand_total)))
    by (vm_compute; reflexivity).
  split; [exact Hz | split; [exact H|]]. split.
  - exact (proj1 (proj2 (sales_are_valid_lines_grouped _ _ _ _ _ _
                           (KInt 1) Hz H))).
  - exact (sales_are_valid_lines_grouped _ _ _ _ _ _ (KInt 3) Hz H).
Defined.

(** X7: every item of every sale that [compute_sales] returns agrees
    with the catalogue: its product is a title of the catalogue, its unit
    price is the price the catalogue has for it, and its line total is
    that price times the quantity. *)
Theorem items_agree_with_catalogue
  (catalogue : dict float) (sales_records : list pyval) (w w' : world)
  (sale_totals : dict sale) (grand_total : float) (k : key) (s : sale)
  (item : line_item) :
  compute_sales catalogue sales_records w
  = (w', Ok (sale_totals, grand_total)) ->
  lookup k sale_totals = Some s ->
  In item (items s) ->
  item_consistent catalogue item.
Proof.
  intros H. unfold compute_sales in H.
  pose (I := fun (_ : list pyval) (acc : dict sale * float) =>
               forall k s item,
                 lookup k (fst acc) = Some s -> In item (items s) ->
                 item_consistent catalogue item).
  assert (Hstep : forall idx done x acc w w' acc',
             I done acc ->
             compute_sales_body catalogue idx x acc w = (w', Ok acc') ->
             I (done ++ [x]) acc').
  { clear. subst I. cbv beta.
    intros idx done x [st g] w0 w1 [st' g'] HI Hb k s item.
    simpl in HI |- *. rewrite compute_sales_body_examine in Hb.
    destruct (examine catalogue x) as [warning|e|k0 it] eqn:Hx;
      inversion Hb; subst; [apply HI|].
    rewrite add_line_lookup. destruct (key_eqb k0 k); [|apply HI].
    intros E Hin. inversion E; subst; clear E. simpl in Hin.
    apply in_app_or in Hin. destruct Hin as [Hin | [<- | []]].
    - destruct (lookup k0 st) as [s0|] eqn:Hk; [eauto | destruct Hin].
    - exact (proj2 (examine_accepted_item _ _ _ _ Hx)). }
  assert (H0 : I [] ([], PyFloat.zero)) by (intros ? ? ? ?; discriminate).
  exact (for_enumerate_invariant _ I Hstep _ _ _ _ _ _ _ H0 H k s item).
Qed.

Lemma items_agree_with_catalogue_witness :
  compute_sales Sample.catalogue Sample.sales_records initial
  = (emit Sample.warnings initial,
     Ok (Sample.sale_totals, Sample.grand_total))
  /\ lookup (KInt 2) Sample.sale_totals = Some Sample.sale_2
  /\ item_consistent Sample.catalogue
       (Sample.item "Ink" 3 Sample.price_0_25
          (PyFloat.of_decimal false 75 (-2))).
Proof.
  assert (H : compute_sales Sample.catalogue Sample.sales_records initial
              = (emit Sample.warnings initial,
                 Ok (Sample.sale_totals, Sample.grand_total)))
    by (vm_compute; reflexivity).
  assert (Hk : lookup (KInt 2) Sample.sale_totals = Some Sample.sale_2)
    by reflexivity.
  split; [exact H | split; [exact Hk|]].
  apply (items_agree_with_catalogue _ _ _ _ _ _ _ _ _ H Hk).
  left. reflexivity.
Defined.

Lemma total_items_setitem (k : key) (v : sale) (st : dict sale) :
  total_items (setitem k v st) =
  match lookup k st with
  | Some s => (total_items st + List.length (items v)
               - List.length (items s))%nat
  | None => (total_items st + List.length (items v))%nat
  end.
Proof.
  unfold total_items. induction st as [|[k' s'] st IH]; simpl.
  - lia.
  - destruct (key_eqb k k'); simpl.
    + lia.
    + rewrite IH. destruct (lookup k st) as [s|] eqn:Hk; [|lia].
      assert (List.length (items s)
              <= list_sum (map (fun kv => List.length (items (snd kv))) st))%nat.
      { clear IH. induction st as [|[k0 s0] st IHst]; [discriminate|].
        simpl in Hk |- *. destruct (key_eqb k k0).
        - inversion Hk; subst. lia.
        - specialize (IHst Hk). lia. }
      lia.
Qed.

Lemma total_items_add_line (k : key) (d : pyval) (item : line_item)
  (st : dict sale) :
  total_items (add_line k d item st) = S (total_items st).
Proof.
  unfold add_line. rewrite total_items_setitem.
  destruct (lookup k st) as [s|]; simpl; rewrite ?List.length_app; simpl;
    lia.
Qed.

(** X8: when [compute_sales] returns, what it has printed is exactly one
    warning for each record it skipped, with the index of the record, in
    input order; every record was either skipped with its warning or
    became one item of one sale, and no file was touched. *)
Theorem sale_warnings_one_per_skipped
  (catalogue : dict float) (sales_records : list pyval) (w w' : world)
  (sale_totals : dict sale) (grand_total : float) :
  compute_sales catalogue sales_records w
  = (w', Ok (sale_totals, grand_total)) ->
  w' = emit (warnings_from (sale_warning catalogue) 0 sales_records) w
  /\ (List.length (warnings_from (sale_warning catalogue) 0 sales_records)
      + total_items sale_totals)%nat
     = List.length sales_records.
Proof.
  intros H. unfold compute_sales in H. split.
  - apply (for_enumerate_warnings (compute_sales_body catalogue)
             (sale_warning catalogue))
      with (s := ([], PyFloat.zero)) (s' := (sale_totals, grand_total));
      [|exact H].
    clear. intros idx x [st g] w w' s' Hb.
    rewrite compute_sales_body_examine in Hb. unfold sale_warning.
    destruct (examine catalogue x); inversion Hb; subst;
      [reflexivity | now rewrite emit_nil].
  - rewrite warnings_from_length.
    pose (skipped := fun x => match sale_warning catalogue x with
                              | Some _ => true
                              | None => false
                              end).
    pose (I := fun (done : list pyval) (acc : dict sale * float) =>
                 (List.length (filter skipped done)
                  + total_items (fst acc))%nat = List.length done).
    assert (Hstep : forall idx done x acc w w' acc',
               I done acc ->
               compute_sales_body catalogue idx x acc w = (w', Ok acc') ->
               I (done ++ [x]) acc').
    { clear. subst I skipped. cbv beta.
      intros idx done x [st g] w0 w1 [st' g'] HI Hb.
      simpl in HI |- *. rewrite compute_sales_body_examine in Hb.
      rewrite filter_app, !List.length_app. cbn [filter].
      unfold sale_warning at 2.
      destruct (examine catalogue x) as [warning|e|k0 item];
        inversion Hb; subst; cbn [List.length].
      - lia.
      - rewrite total_items_add_line. lia. }
    assert (H0 : I [] ([], PyFloat.zero)) by reflexivity.
    exact (for_enumerate_invariant _ I Hstep _ _ _ _ _ _ _ H0 H).
Qed.

Lemma sale_warnings_one_per_skipped_witness :
  compute_sales Sample.catalogue Sample.sales_records initial
  = (emit Sample.warnings initial,
     Ok (Sample.sale_totals, Sample.grand_total))
  /\ warnings_from (sale_warning Sample.catalogue) 0 Sample.sales_records
     = Sample.warnings
  /\ (3 + total_items Sample.sale_totals)%nat = 6%nat.
Proof.
  assert (H : compute_sales Sample.catalogue Sample.sales_records initial
              = (emit Sample.warnings initial,
                 Ok (Sample.sale_totals, Sample.grand_total)))
    by (vm_compute; reflexivity).
  split; [exact H|].
  destruct (sale_warnings_one_per_skipped _ _ _ _ _ _ H) as [_ Hn].
  split; [vm_compute; reflexivity | exact Hn].
Defined.

(** X9: [compute_sales] does not catch what a record raises.  After
    records that it got through, a record that is no JSON object raises
    [AttributeError]; a [Quantity] of plus or minus infinity, on a record
    with a [SALE_ID] and a [Product], raises [OverflowError]; and a
    [SALE_ID] that is a list or an object, on a line that is valid
    otherwise, raises [TypeError].  The records after it are not looked
    at, and what was printed before stays. *)
Theorem compute_sales_raises
  (catalogue : dict float) (pre post : list pyval) (x : pyval)
  (w w1 : world) (acc : dict sale * float) :
  compute_sales catalogue pre w = (w1, Ok acc) ->
  (is_object x = false ->
   compute_sales catalogue (pre ++ x :: post) w
   = (w1, Raise AttributeError))
  /\ (forall sign,
         is_object x = true ->
         is_None (field x "SALE_ID") = false ->
         truthy (field x "Product") = true ->
         field x "Quantity" = PFloat (S754_infinity sign) ->
         compute_sales catalogue (pre ++ x :: post) w
         = (w1, Raise OverflowError))
  /\ (forall kp q price lt,
         is_object x = true ->
         is_None (field x "SALE_ID") = false ->
         hashable (field x "SALE_ID") = false ->
         truthy (field x "Product") = true ->
         py_hash (field x "Product") = Ok kp ->
         lookup kp catalogue = Some price ->
         py_int (field x "Quantity") = Ok q ->
         float_mul_int price q = Ok lt ->
         compute_sales catalogue (pre ++ x :: post) w
         = (w1, Raise TypeError)).
Proof.
  intros Hpre. unfold compute_sales in *.
  assert (Hfail : forall e, examine catalogue x = Raised e ->
            for_enumerate (compute_sales_body catalogue) 0
              (pre ++ x :: post) ([], PyFloat.zero) w = (w1, Raise e)).
  { intros e He. apply (for_enumerate_raises _ _ _ _ _ _ _ _ _ _ Hpre).
    destruct acc as [st g].
    now rewrite compute_sales_body_examine, He. }
  split; [|split].
  - intros Hx. apply Hfail. destruct x; try reflexivity. discriminate.
  - intros sign Hx Hs Hp Hq. apply Hfail.
    destruct x; try discriminate. unfold examine.
    rewrite Hs, Hp, Hq. reflexivity.
  - intros kp q price lt Hx Hs Hh Hp Hkp Hl Hq Hm. apply Hfail.
    destruct x; try discriminate. unfold examine.
    rewrite Hs, Hp, Hq, Hkp, Hl, Hm. cbn [negb]. cbv iota.
    destruct (field _ "SALE_ID"); simpl in Hh; try discriminate;
      reflexivity.
Qed.

Lemma compute_sales_raises_witness :
  compute_sales Sample.catalogue Sample.sales_records initial
  = (emit Sample.warnings initial,
     Ok (Sample.sale_totals, Sample.grand_total))
  /\ compute_sales Sample.catalogue
       (Sample.sales_records
        ++ infinite_quantity_line
        :: [Sample.line (PInt 1) (PStr "Pen") (PInt 1)]) initial
     = (emit Sample.warnings initial, Raise OverflowError).
Proof.
  assert (H : compute_sales Sample.catalogue Sample.sales_records initial
              = (emit Sample.warnings initial,
                 Ok (Sample.sale_totals, Sample.grand_total)))
    by (vm_compute; reflexivity).
  split; [exact H|].
  destruct (compute_sales_raises Sample.catalogue Sample.sales_records
              [Sample.line (PInt 1) (PStr "Pen") (PInt 1)]
              infinite_quantity_line _ _ _ H) as (_ & Ho & _).
  apply (Ho false); reflexivity.
Defined.

(** X10: when all the valid lines are of one sale, the grand total that
    [compute_sales] returns is the total of that sale, bit for bit; when
    there is no valid line, it is [0.0] and there is no sale. *)
Theorem single_sale_total_is_grand_total
  (catalogue : dict float) (sales_records : list pyval) (w w' : world)
  (sale_totals : dict sale) (grand_total : float) :
  compute_sales catalogue sales_records w
  = (w', Ok (sale_totals, grand_total)) ->
  (List.length sale_totals <= 1)%nat ->
  match sale_totals with
  | [] => grand_total = PyFloat.zero
  | (_, s) :: _ => grand_total = total s
  end.
Proof.
  intros H. unfold compute_sales in H.
  pose (I := fun (_ : list pyval) (acc : dict sale * float) =>
               (List.length (fst acc) <= 1)%nat ->
               match fst acc with
               | [] => snd acc = PyFloat.zero
               | (_, s) :: _ => snd acc = total s
               end).
  assert (Hstep : forall idx done x acc w w' acc',
             I done acc ->
             compute_sales_body catalogue idx x acc w = (w', Ok acc') ->
             I (done ++ [x]) acc').
  { clear. subst I. cbv beta.
    intros idx done x [st g] w0 w1 [st' g'] HI Hb.
    simpl in HI |- *. rewrite compute_sales_body_examine in Hb.
    destruct (examine catalogue x) as [warning|e|k0 item];
      inversion Hb; subst; [exact HI|].
    unfold add_line. destruct st as [|[k1 s1] [|b st]]; simpl.
    - intros _. rewrite (HI ltac:(simpl; lia)). reflexivity.
    - destruct (key_eqb k0 k1); simpl.
      + intros _. rewrite (HI ltac:(simpl; lia)). reflexivity.
      + lia.
    - destruct (key_eqb k0 k1); simpl; [lia|].
      destruct b as [k2 s2]. destruct (key_eqb k0 k2); simpl; lia. }
  assert (H0 : I [] ([], PyFloat.zero)) by (intros _; reflexivity).
  exact (for_enumerate_invariant _ I Hstep _ _ _ _ _ _ _ H0 H).
Qed.

Lemma single_sale_total_is_grand_total_witness :
  compute_sales Sample.catalogue
    [Sample.line (PInt 2) (PStr "Ink") (PStr "3")] initial
  = (initial,
     Ok ([(KInt 2, Sample.sale_2)], PyFloat.of_decimal false 75 (-2)))
  /\ (List.length [(KInt 2, Sample.sale_2)] <= 1)%nat
  /\ PyFloat.of_decimal false 75 (-2) = total Sample.sale_2.
Proof.
  assert (H : compute_sales Sample.catalogue
                [Sample.line (PInt 2) (PStr "Ink") (PStr "3")] initial
              = (initial,
                 Ok ([(KInt 2, Sample.sale_2)],
                     PyFloat.of_decimal false 75 (-2))))
    by (vm_compute; reflexivity).
  assert (Hn : (List.length [(KInt 2, Sample.sale_2)] <= 1)%nat)
    by (simpl; lia).
  split; [exact H | split; [exact Hn|]].
  exact (single_sale_total_is_grand_total _ _ _ _ _ _ H Hn).
Defined.

(** ** The report formatter *)

Lemma insert_permutation (x : key) (l r : list key) :
  Order.insert x l = Ok r -> Permutation (x :: l) r.
Proof.
  revert r. induction l as [|y l IH]; intros r; simpl.
  - intros H. inversion H. apply Permutation_refl.
  - destruct (Order.key_lt y x) as [[|]|e]; try discriminate.
    + destruct (Order.insert x l) as [r'|e]; [|discriminate].
      intros H. inversion H; subst.
      eapply perm_trans; [apply perm_swap|]. apply perm_skip. now apply IH.
    + intros H. inversion H. apply Permutation_refl.
Qed.

Lemma sorted_permutation (l r : list key) :
  Order.sorted l = Ok r -> Permutation l r.
Proof.
  revert r. induction l as [|x l IH]; intros r; simpl.
  - intros H. inversion H. apply perm_nil.
  - destruct (Order.sorted l) as [r'|e]; [|discriminate].
    intros H. apply insert_permutation in H.
    eapply perm_trans; [|exact H]. apply perm_skip. now apply IH.
Qed.

(** Sorting keys that are the images of items of one type whose order
    [key_lt] decides: the result is a permutation in which no item is
    above its successor. *)
Section SortedKeys.

Context {T : Type} (inj : T -> key) (lt : T -> T -> bool).
Hypothesis key_lt_inj : forall a b, Order.key_lt (inj a) (inj b) = Ok (lt a b).
Hypothesis lt_asym : forall a b, lt a b = true -> lt b a = false.



End SortedKeys.










(** The sample, with its sales stored in the order 2, 1. *)
Example detailed_report_of_unordered_sales :
  format_results unordered_sales Sample.grand_total PyFloat.zero true
  = Ok ([LTitle; LBlank]
        ++ format_sale (KInt 1) Sample.sale_1
        ++ format_sale (KInt 2) Sample.sale_2
        ++ footer Sample.grand_total PyFloat.zero).
Proof. reflexivity. Qed.



Lemma key_lt_kind (a b : key) (c : bool) :
  Order.key_lt a b = Ok c -> kind a = kind b /\ kind a <> KindNone.
Proof.
  destruct a, b; simpl; try discriminate; intros _; split;
    try reflexivity; discriminate.
Qed.

Lemma key_lt_raises (a b : key) (e : exn) :
  Order.key_lt a b = Raise e -> e = TypeError.
Proof.
  destruct a, b; simpl; try discriminate; congruence.
Qed.

Lemma insert_raises (x : key) (l : list key) (e : exn) :
  Order.insert x l = Raise e -> e = TypeError.
Proof.
  induction l as [|y l IH]; simpl; [discriminate|].
  destruct (Order.key_lt y x) as [[|]|e'] eqn:E; try discriminate.
  - destruct (Order.insert x l); [discriminate|].
    intros H. inversion H; subst. now apply IH.
  - intros H. inversion H; subst. eapply key_lt_raises; eauto.
Qed.

Lemma sorted_raises (l : list key) (e : exn) :
  Order.sorted l = Raise e -> e = TypeError.
Proof.
  induction l as [|x l IH]; simpl; [discriminate|].
  destruct (Order.sorted l) as [r|e'].
  - apply insert_raises.
  - intros H. inversion H; subst. now apply IH.
Qed.

(** Keys that sort are of one kind, strings or numbers, as soon as there
    are two of them. *)
Lemma sorted_one_kind (l r : list key) :
  Order.sorted l = Ok r ->
  (2 <= List.length l)%nat ->
  exists c, c <> KindNone /\ Forall (fun k => kind k = c) l.
Proof.
  revert r. induction l as [|x l IH]; intros r; simpl; [lia|].
  destruct (Order.sorted l) as [r'|e] eqn:Hs; [|discriminate].
  intros Hi Hlen.
  pose proof (sorted_permutation _ _ Hs) as Hp.
  destruct r' as [|y r'].
  { apply Permutation_sym, Permutation_nil in Hp. subst l.
    simpl in Hlen. lia. }
  simpl in Hi.
  destruct (Order.key_lt y x) as [c|e] eqn:Hlt; [|discriminate].
  destruct (key_lt_kind _ _ _ Hlt) as [Hk Hn].
  assert (Hy : In y l)
    by (eapply Permutation_in;
        [apply Permutation_sym; exact Hp | now left]).
  exists (kind y). split; [exact Hn|]. constructor; [congruence|].
  destruct l as [|a [|b l]].
  - destruct Hy.
  - destruct Hy as [-> | []]. repeat constructor.
  - destruct (IH _ eq_refl ltac:(simpl; lia)) as (c0 & _ & Hall).
    rewrite Forall_forall in Hall. rewrite (Hall y Hy).
    now apply Forall_forall.
Qed.

(** X13: asked for the details of sales whose ids are not all of one
    kind (a string and a number, or [None] and anything), [format_results]
    raises [TypeError]; asked for the summary, it returns the title and
    the footer whatever the sales. *)
Theorem detailed_report_mixed_ids
  (sale_totals : dict sale) (grand_total elapsed : float) (a b : key) :
  In a (keys sale_totals) ->
  In b (keys sale_totals) ->
  kind a <> kind b ->
  format_results sale_totals grand_total elapsed true = Raise TypeError
  /\ format_results sale_totals grand_total elapsed false
     = Ok ([LTitle; LBlank] ++ footer grand_total elapsed).
Proof.
  intros Ha Hb Hne. split; [|reflexivity].
  unfold format_results.
  destruct (Order.sorted (keys sale_totals)) as [ids|e] eqn:Hs.
  - exfalso.
    assert (Hlen : (2 <= List.length (keys sale_totals))%nat).
    { destruct (keys sale_totals) as [|x [|y l]]; simpl in *; try lia.
      destruct Ha as [Ha | []], Hb as [Hb | []].
      exfalso. apply Hne. congruence. }
    destruct (sorted_one_kind _ _ Hs Hlen) as (c & _ & Hall).
    rewrite Forall_forall in Hall.
    apply Hne. now rewrite (Hall a Ha), (Hall b Hb).
  - now rewrite (sorted_raises _ _ Hs).
Qed.

Lemma detailed_report_mixed_ids_witness :
  In (KInt 2) (keys mixed_sales)
  /\ In (KStr "A-1") (keys mixed_sales)
  /\ kind (KInt 2) <> kind (KStr "A-1")
  /\ format_results mixed_sales Sample.grand_total PyFloat.zero true
     = Raise TypeError.
Proof.
  assert (Ha : In (KInt 2) (keys mixed_sales)) by (left; reflexivity).
  assert (Hb : In (KStr "A-1") (keys mixed_sales))
    by (right; left; reflexivity).
  assert (Hn : kind (KInt 2) <> kind (KStr "A-1")) by discriminate.
  repeat (split; [assumption|]).
  exact (proj1 (detailed_report_mixed_ids mixed_sales Sample.grand_total
                  PyFloat.zero _ _ Ha Hb Hn)).
Defined.

(** ** The command line *)




(** When [parse_args] does not return, it exits: with status 0 after
    printing the help text, or with status 2 and nothing on the standard
    output. *)
Lemma parse_args_exits
  (argv : list string) (w w' : world) (e : exn) :
  parse_args argv w = (w', Raise e) ->
  (e = SystemExit 0 /\ w' = emit [Help] w)
  \/ (e = SystemExit 2 /\ w' = w).
Proof.
  unfold parse_args, sys_exit, bind, ret, raise, print.
  destruct (existsb _ _); [intros H; inversion H; auto|].
  destruct (Argparse.consume _ _) as [s| |];
    try (intros H; inversion H; auto; fail).
  destruct (Argparse.positionals s) as [|c [|r [|x l]]];
    try (intros H; inversion H; auto; fail).
  destruct (Argparse.unrecognized s);
    try (intros H; inversion H; auto; fail).
  destruct (Args.total _); discriminate.
Qed.


(** ** The entry point, further *)

Lemma tame_ret {A : Type} (a : A) : tame (ret a).
Proof.
  exists [], (Ok a). repeat split; [constructor | discriminate |].
  intros w. unfold ret. now rewrite emit_nil.
Qed.

Lemma tame_raise {A : Type} (e : exn) : no_exit e -> tame (@raise A e).
Proof.
  intros He. exists [], (Raise e). repeat split; [constructor | |].
  - intros e' H. now inversion H; subst.
  - intros w. unfold raise. now rewrite emit_nil.
Qed.

Lemma tame_lift {A : Type} (r : result A) :
  (forall e, r = Raise e -> no_exit e) -> tame (lift r).
Proof.
  intros Hr. exists [], r. repeat split; [constructor | exact Hr |].
  intros w. unfold lift. now rewrite emit_nil.
Qed.

Lemma tame_print (o : output) : quiet o -> tame (print o).
Proof.
  intros Ho. exists [o], (Ok tt).
  repeat split; [now repeat constructor | discriminate].
Qed.

Lemma tame_bind {A B : Type} (m : M A) (f : A -> M B) :
  tame m -> (forall a, tame (f a)) -> tame (bind m f).
Proof.
  intros (log & r & Hq & Hr & Hm) Hf. destruct r as [a|e].
  - destruct (Hf a) as (log' & r' & Hq' & Hr' & Hfa).
    exists (log ++ log'), r'. repeat split; [|exact Hr'|].
    + apply Forall_app. auto.
    + intros w. unfold bind. now rewrite Hm, Hfa, emit_emit.
  - exists log, (Raise e). repeat split; [exact Hq| |].
    + intros e' H. inversion H; subst. now apply Hr.
    + intros w. unfold bind. now rewrite Hm.
Qed.

Lemma tame_for_enumerate {A St : Type} (body : nat -> A -> St -> M St) :
  (forall idx x s, tame (body idx x s)) ->
  forall l idx s, tame (for_enumerate body idx l s).
Proof.
  intros Hbody l. induction l as [|x l IH]; intros idx s; simpl.
  - apply tame_ret.
  - apply tame_bind; auto.
Qed.

Lemma py_float_raises (v : pyval) (e : exn) :
  py_float v = Raise e ->
  e = TypeError \/ e = ValueError \/ e = OverflowError.
Proof.
  destruct v as [|b|z|f|s|l|d]; simpl; try discriminate;
    try (intros H; inversion H; auto; fail).
  - unfold float_of_int. destruct (PyFloat.is_finite _); [discriminate|].
    intros H. inversion H; auto.
  - destruct (Literal.parse_float s); [discriminate|].
    intros H. inversion H; auto.
Qed.

Lemma py_int_raises (v : pyval) (e : exn) :
  py_int v = Raise e ->
  e = TypeError \/ e = ValueError \/ e = OverflowError.
Proof.
  destruct v as [|b|z|f|s|l|d]; simpl; try discriminate;
    try (intros H; inversion H; auto; fail).
  - destruct (PyFloat.trunc f); [discriminate|].
    destruct (PyFloat.is_nan f); intros H; inversion H; auto.
  - destruct (Literal.parse_int s); [discriminate|].
    intros H. inversion H; auto.
Qed.

Lemma py_hash_raises (v : pyval) (e : exn) :
  py_hash v = Raise e -> e = TypeError.
Proof.
  destruct v as [|b|z|f|s|l|d]; simpl; try discriminate;
    try (intros H; inversion H; auto; fail).
  destruct (PyFloat.is_integer f); [destruct (PyFloat.trunc f)|];
    discriminate.
Qed.

Lemma float_mul_int_raises (x : float) (n : Z) (e : exn) :
  float_mul_int x n = Raise e -> e = OverflowError.
Proof.
  unfold float_mul_int, float_of_int.
  destruct (PyFloat.is_finite _); [discriminate|].
  intros H. now inversion H.
Qed.

(** What a product can raise: [AttributeError], [TypeError] or
    [OverflowError]. *)
Lemma examine_product_failed (x : pyval) (e : exn) :
  examine_product x = Failed e ->
  e = AttributeError \/ e = TypeError \/ e = OverflowError.
Proof.
  unfold examine_product.
  destruct x; try (intros H; inversion H; auto; fail).
  destruct (negb _); [discriminate|].
  destruct (is_None _); [discriminate|].
  destruct (py_float _) as [p|e0] eqn:Hf.
  - destruct (PyFloat.ltb _ _); [discriminate|].
    destruct (py_hash _) as [k|e1] eqn:Hh; [discriminate|].
    intros H. inversion H; subst. apply py_hash_raises in Hh. auto.
  - apply py_float_raises in Hf. destruct Hf as [-> | [-> | ->]];
      try discriminate.
    intros H. inversion H; auto.
Qed.

Lemma examine_product_rejected (x : pyval) (warning : nat -> output)
  (idx : nat) :
  examine_product x = Rejected warning -> quiet (warning idx).
Proof.
  unfold examine_product. destruct x; try discriminate.
  destruct (negb _); [intros H; inversion H; reflexivity|].
  destruct (is_None _); [intros H; inversion H; reflexivity|].
  destruct (py_float _) as [p|[]]; try discriminate;
    try (intros H; inversion H; reflexivity).
  destruct (PyFloat.ltb _ _); [intros H; inversion H; reflexivity|].
  destruct (py_hash _); discriminate.
Qed.

(** What a sale record can raise: [AttributeError], [TypeError] or
    [OverflowError]. *)
Lemma examine_raised (catalogue : dict float) (x : pyval) (e : exn) :
  examine catalogue x = Raised e ->
  e = AttributeError \/ e = TypeError \/ e = OverflowError.
Proof.
  unfold examine.
  destruct x; try (intros H; inversion H; auto; fail).
  destruct (is_None _); [discriminate|].
  destruct (negb _); [discriminate|].
  destruct (py_int _) as [q|e0] eqn:Hq.
  - destruct (py_hash (field _ "Product")) as [kp|e1] eqn:Hh.
    + destruct (lookup kp catalogue) as [price|]; [|discriminate].
      destruct (float_mul_int price q) as [lt|e2] eqn:Hm.
      * destruct (py_hash (field _ "SALE_ID")) as [k|e3] eqn:Hs;
          [discriminate|].
        intros H. inversion H; subst. apply py_hash_raises in Hs. auto.
      * intros H. inversion H; subst.
        apply float_mul_int_raises in Hm. auto.
    + intros H. inversion H; subst. apply py_hash_raises in Hh. auto.
  - apply py_int_raises in Hq. destruct Hq as [-> | [-> | ->]];
      try discriminate.
    intros H. inversion H; auto.
Qed.

Lemma examine_skipped_quiet (catalogue : dict float) (x : pyval)
  (warning : nat -> output) (idx : nat) :
  examine catalogue x = Skipped warning -> quiet (warning idx).
Proof.
  unfold examine. destruct x; try discriminate.
  destruct (is_None _); [intros H; inversion H; reflexivity|].
  destruct (negb _); [intros H; inversion H; reflexivity|].
  destruct (py_int _) as [q|[]]; try discriminate;
    try (intros H; inversion H; reflexivity).
  destruct (py_hash (field _ "Product")); [|discriminate].
  destruct (lookup _ catalogue); [|intros H; inversion H; reflexivity].
  destruct (float_mul_int _ _); [|discriminate].
  destruct (py_hash _); discriminate.
Qed.

Lemma no_exit_of_three (e : exn) :
  e = AttributeError \/ e = TypeError \/ e = OverflowError -> no_exit e.
Proof. intros [-> | [-> | ->]]; exact I. Qed.

Lemma tame_build_price_catalogue (products : list pyval) :
  tame (build_price_catalogue products).
Proof.
  apply tame_for_enumerate. intros idx x c.
  assert (H := build_price_catalogue_body_examine idx x c).
  destruct (examine_product x) as [warning|e|k p] eqn:Hx.
  - exists [warning idx], (Ok c). repeat split; [|discriminate|exact H].
    repeat constructor. eapply examine_product_rejected; eauto.
  - exists [], (Raise e). repeat split; [constructor | |].
    + intros e' He'. inversion He'; subst e'.
      apply no_exit_of_three. now apply examine_product_failed with x.
    + intros w. rewrite H. now rewrite emit_nil.
  - exists [], (Ok (setitem k p c)). repeat split;
      [constructor | discriminate |].
    intros w. rewrite H. now rewrite emit_nil.
Qed.

Lemma tame_compute_sales (catalogue : dict float)
  (sales_records : list pyval) :
  tame (compute_sales catalogue sales_records).
Proof.
  apply tame_for_enumerate. intros idx x [st g].
  assert (H := compute_sales_body_examine catalogue idx x st g).
  destruct (examine catalogue x) as [warning|e|k item] eqn:Hx.
  - exists [warning idx], (Ok (st, g)).
    repeat split; [|discriminate|exact H].
    repeat constructor. eapply examine_skipped_quiet; eauto.
  - exists [], (Raise e). repeat split; [constructor | |].
    + intros e' He'. inversion He'; subst e'.
      apply no_exit_of_three. now apply examine_raised with catalogue x.
    + intros w. rewrite H. now rewrite emit_nil.
  - eexists [], (Ok _). repeat split; [constructor | discriminate |].
    intros w. rewrite H. now rewrite emit_nil.
Qed.

Lemma parse_args_silent (argv : list string) (w w' : world)
  (args : Args.Namespace) :
  parse_args argv w = (w', Ok args) -> w' = w.
Proof.
  unfold parse_args, sys_exit, bind, ret, raise, print.
  destruct (existsb _ _); [discriminate|].
  destruct (Argparse.consume _ _) as [s| |]; try discriminate.
  destruct (Argparse.positionals s) as [|c [|r [|x l]]]; try discriminate.
  destruct (Argparse.unrecognized s); [discriminate|].
  destruct (Args.total _); intros H; now inversion H.
Qed.

Lemma exit_status_no_exit (e : exn) : no_exit e -> exit_status (Raise e) = 1.
Proof. destruct e; simpl; tauto. Qed.

Ltac quiet_log :=
  repeat match goal with
    | |- Forall quiet (_ ++ _) => apply Forall_app; split
    | |- Forall quiet (_ :: _) => constructor; [reflexivity|]
    | |- Forall quiet [] => constructor
    | |- Forall quiet _ => assumption
    end.

(** X15: how a run of [main] ends.  Either it prints no report and
    writes no file, and exits with status 1 or 2, or with status 0 after
    the help text alone; or it exits with status 0 after printing the
    summary report (title, grand total and elapsed time, never the sales)
    and the note that the results were saved.  In that case it has written
    that very report to [SalesResults.txt], unless opening the file
    failed: then it printed the error before the note, wrote nothing, and
    exits with status 0 all the same. *)
Theorem run_outcome (E : env) (argv : list string) (w : world)
  (status : Z) :
  run E argv = (w, status) ->
  (files w = []
   /\ Forall quiet (stdout w)
   /\ (status = 1 \/ status = 2 \/ (status = 0 /\ stdout w = [Help])))
  \/ (status = 0
      /\ exists log g,
          Forall quiet log
          /\ match open_for_writing E results_file with
             | Written =>
                 stdout w
                 = log ++ [Results (summary_report g (elapsed_time E));
                           ResultsSaved]
                 /\ files w
                    = [(results_file, summary_report g (elapsed_time E))]
             | WritePermissionError =>
                 stdout w
                 = log ++ [Results (summary_report g (elapsed_time E));
                           ErrPermissionWrite results_file; ResultsSaved]
                 /\ files w = []
             | WriteOSError =>
                 stdout w
                 = log ++ [Results (summary_report g (elapsed_time E));
                           ErrCouldNotWrite results_file; ResultsSaved]
                 /\ files w = []
             end).
Proof.
  intros H. unfold run in H.
  destruct (main E argv initial) as [w1 r] eqn:Hm.
  inversion H; subst; clear H.
  unfold main, bind in Hm.
  destruct (parse_args argv initial) as [w0 [args|e]] eqn:Hp.
  2: { inversion Hm; subst. left.
       destruct (parse_args_exits _ _ _ _ Hp) as [[-> ->] | [-> ->]];
         simpl; repeat split; auto; quiet_log. }
  pose proof (parse_args_silent _ _ _ _ Hp) as ->.
  destruct (parse_args_never_detail _ _ _ _ Hp) as [_ Hd].
  unfold load_json, sys_exit, bind, raise, print, ret in Hm.
  destruct (read_json E (Args.catalogue args)) as [data| | | | | |];
    try (inversion Hm; subst; left; simpl; repeat split; auto; quiet_log;
         fail).
  destruct data as [| | | | |products|];
    try (inversion Hm; subst; left; simpl; repeat split; auto; quiet_log;
         fail).
  destruct (read_json E (Args.sales args)) as [data| | | | | |];
    try (inversion Hm; subst; left; simpl; repeat split; auto; quiet_log;
         fail).
  destruct data as [| | | | |records|];
    try (inversion Hm; subst; left; simpl; repeat split; auto; quiet_log;
         fail).
  destruct (tame_build_price_catalogue products)
    as (lb & rb & Hqb & Hrb & Hb).
  rewrite Hb in Hm. destruct rb as [catalogue|e].
  2: { inversion Hm; subst. left.
       rewrite (exit_status_no_exit e (Hrb e eq_refl)).
       simpl; repeat split; auto; quiet_log. }
  destruct (is_empty catalogue).
  { inversion Hm; subst; left; simpl; repeat split; auto; quiet_log. }
  destruct (tame_compute_sales catalogue records)
    as (lc & rc & Hqc & Hrc & Hc).
  rewrite Hc in Hm. destruct rc as [[st g]|e].
  2: { inversion Hm; subst. left.
       rewrite (exit_status_no_exit e (Hrc e eq_refl)).
       simpl; repeat split; auto; quiet_log. }
  rewrite Hd in Hm. unfold lift, format_results, write_results, write_file,
    print in Hm.
  right. fold (elapsed_time E) in Hm.
  destruct (open_for_writing E results_file); inversion Hm; subst;
    (split; [reflexivity|]); exists (lb ++ lc), g;
    (split; [quiet_log|]); simpl; rewrite <- !app_assoc; auto.
Qed.

Lemma run_outcome_witness :
  run SampleRun.E SampleRun.argv
  = ({| stdout := Sample.warnings
                  ++ [Results SampleRun.summary; ResultsSaved];
        files := [(results_file, SampleRun.summary)] |}, 0)
  /\ SampleRun.summary
     = summary_report Sample.grand_total (elapsed_time SampleRun.E).
Proof.
  assert (H : run SampleRun.E SampleRun.argv
              = ({| stdout := Sample.warnings
                              ++ [Results SampleRun.summary; ResultsSaved];
                    files := [(results_file, SampleRun.summary)] |}, 0))
    by (vm_compute; reflexivity).
  split; [exact H|].
  destruct (run_outcome _ _ _ _ H) as [(Hf & _) | (_ & log & g & _ & Hw)].
  - discriminate Hf.
  - vm_compute. reflexivity.
Defined.

(** X16: a run that gets through prints and writes the sum over the
    valid lines.  With a command line that parses, two files that hold
    arrays, a catalogue that is not empty after filtering, a sales array
    on which [compute_sales] returns, and a results file that opens,
    [main] prints the warnings of both stages, then the summary report
    with the grand total, writes that report to [SalesResults.txt], and
    exits with status 0; the grand total is the sum of
    [catalogue[Product] * Quantity] over the valid lines. *)
Theorem run_reports_grand_total
  (E : env) (argv : list string) (args : Args.Namespace)
  (products records : list pyval) (wb wc : world)
  (catalogue : dict float) (sale_totals : dict sale) (g : float) :
  parse_args argv initial = (initial, Ok args) ->
  read_json E (Args.catalogue args) = Loaded (PList products) ->
  read_json E (Args.sales args) = Loaded (PList records) ->
  build_price_catalogue products initial = (wb, Ok catalogue) ->
  catalogue <> [] ->
  compute_sales catalogue records wb = (wc, Ok (sale_totals, g)) ->
  open_for_writing E results_file = Written ->
  run E argv
  = ({| stdout := stdout wc
                  ++ [Results (summary_report g (elapsed_time E));
                      ResultsSaved];
        files := [(results_file, summary_report g (elapsed_time E))] |},
     0)
  /\ g = valid_lines_total catalogue records.
Proof.
  intros Hp Hc Hs Hb Hne Hcs Hw. split.
  - destruct (parse_args_never_detail _ _ _ _ Hp) as [_ Hd].
    assert (Hf : files wc = []).
    { pose proof (prints_only_files _ initial
                    (prints_only_build_price_catalogue products)) as H1.
      pose proof (prints_only_files _ wb
                    (prints_only_compute_sales catalogue records)) as H2.
      rewrite Hb in H1. rewrite Hcs in H2. simpl in H1, H2. congruence. }
    unfold run, main, bind. rewrite Hp.
    unfold load_json. rewrite Hc, Hs. unfold ret at 1 2.
    rewrite Hb. destruct catalogue as [|b c]; [congruence|].
    cbn [is_empty]. rewrite Hcs, Hd.
    unfold lift, format_results, write_results, write_file, print.
    rewrite Hw. cbn. rewrite Hf, <- app_assoc. reflexivity.
  - eapply grand_total_of_the_pipeline; eauto.
Qed.

Lemma run_reports_grand_total_witness :
  run SampleRun.E SampleRun.argv
  = ({| stdout := stdout (emit Sample.warnings initial)
                  ++ [Results (summary_report Sample.grand_total
                                 (elapsed_time SampleRun.E));
                      ResultsSaved];
        files := [(results_file,
                   summary_report Sample.grand_total
                     (elapsed_time SampleRun.E))] |}, 0)
  /\ Sample.grand_total
     = valid_lines_total Sample.catalogue Sample.sales_records.
Proof.
  apply (run_reports_grand_total SampleRun.E SampleRun.argv
           {| Args.catalogue := "priceCatalogue.json";
              Args.sales := "salesRecord.json";
              Args.total := true; Args.detail := false |}
           [ PDict [("title", PStr "Pen");
                    ("price", PFloat Sample.price_1_50)];
             PDict [("title", PStr "Ink"); ("price", PStr "0.25")] ]
           Sample.sales_records initial (emit Sample.warnings initial)
           Sample.catalogue Sample.sale_totals Sample.grand_total);
    try (vm_compute; reflexivity).
  discriminate.
Defined.

(** X17: whether the results file can be written does not change the
    exit status of a run. *)
Theorem exit_status_ignores_write_outcome
  (E : env) (argv : list string) (o : write_outcome) :
  snd (run (with_writer E o) argv) = snd (run E argv).
Proof.
  unfold run, main, bind, load_json, write_results, write_file, sys_exit,
    raise, print, ret, lift.
  cbn [with_writer read_json open_for_writing start_time end_time].
  destruct (parse_args argv initial) as [w0 [args|e]]; [|reflexivity].
  destruct (read_json E (Args.catalogue args)) as [data| | | | | |];
    try reflexivity.
  destruct data; try reflexivity.
  destruct (read_json E (Args.sales args)) as [data| | | | | |];
    try reflexivity.
  destruct data; try reflexivity.
  destruct (build_price_catalogue _ _) as [wb [catalogue|e]];
    [|reflexivity].
  destruct (is_empty catalogue); [reflexivity|].
  destruct (compute_sales _ _ _) as [wc [[st g]|e]]; [|reflexivity].
  destruct (format_results _ _ _ _); [|reflexivity].
  destruct o, (open_for_writing E results_file); reflexivity.
Qed.
